(** * Approval coordination of the Slack bot: registry, endpoint, waiter, reaper

    A shallow embedding of
    - [approval-manager] (class [ApprovalManager]: the registry, its HTTP
      routes, the periodic sweep and the direct [resolveApproval] method),
    - the polling permission server (class [PermissionMCPServer] with
      [registerApproval], [pollApprovalStatus], [cleanupApproval] and
      [handlePermissionPrompt]),
    - the embedded permission server ([startHttpServer]),
      with its request listener and [waitForApproval], and the life cycle
      of the manager ([start], [stop]),
    followed by the properties of the specification that concern them. *)

From Stdlib Require Import ZArith String Ascii List Bool Lia.
From Stdlib Require Import Floats.SpecFloat.
From stdpp Require Import gmap strings list fin_maps pretty.

Set Warnings "-register-all".
Local Open Scope string_scope.
Local Open Scope Z_scope.

(** ** JavaScript values *)

Module Js.

(** The values that reach the code through [JSON.parse] and
    [response.json()], plus [undefined], which property access yields for a
    missing field.  Numbers are IEEE 754 binary64. *)
Inductive JsValue : Type :=
| JUndefined
| JNull
| JBool (b : bool)
| JNum (x : spec_float)
| JStr (s : string)
| JArr (xs : list JsValue)
| JObj (fields : list (string * JsValue)).

(** [ToBoolean]: what [||], [&&], [!] and [if] test. *)
Definition truthy (v : JsValue) : bool :=
  match v with
  | JUndefined | JNull => false
  | JBool b => b
  | JNum (S754_zero _) | JNum S754_nan => false
  | JNum _ => true
  | JStr s => negb (String.eqb s "")
  | JArr _ | JObj _ => true
  end.

(** The last binding of [k] in a field list: [JSON.parse] keeps the last of
    duplicated keys. *)
Fixpoint lookupField (k : string) (fields : list (string * JsValue)) : option JsValue :=
  match fields with
  | [] => None
  | (k', v) :: rest =>
      match lookupField k rest with
      | Some w => Some w
      | None => if String.eqb k k' then Some v else None
      end
  end.

(** [v.k] for a property name [k] that no built-in prototype defines and
    that is neither an index nor [length] (the code reads [toolName],
    [input], [success] and [status]).  [None] is the [TypeError] raised on
    [null] and [undefined]. *)
Definition getProp (v : JsValue) (k : string) : option JsValue :=
  match v with
  | JUndefined | JNull => None
  | JObj fields => Some (default JUndefined (lookupField k fields))
  | _ => Some JUndefined
  end.

(** [a || b] *)
Definition or_else (a b : JsValue) : JsValue := if truthy a then a else b.

(** [v === 'literal'] *)
Definition strictEqStr (v : JsValue) (lit : string) : bool :=
  match v with
  | JStr s => String.eqb s lit
  | _ => false
  end.

(** [v == null]: the values on which property access throws. *)
Definition isNullish (v : JsValue) : bool :=
  match v with
  | JUndefined | JNull => true
  | _ => false
  end.

(** The document [v] has no field [k] of its own. *)
Definition lacks (k : string) (v : JsValue) : Prop :=
  match v with
  | JObj fields => lookupField k fields = None
  | _ => True
  end.

(** *** A reference [JSON.parse]

    The endpoint below takes [JSON.parse] as a parameter.  [parseJson] is an
    instance used for the concrete runs: it reads the JSON texts made of
    [null], [true], [false], integer literals, strings of printable ASCII
    with the two-character escapes, arrays and objects, and answers [None]
    on every other text. *)

Definition isWs (c : ascii) : bool :=
  Ascii.eqb c " " || Ascii.eqb c "009" || Ascii.eqb c "010" || Ascii.eqb c "013".

Definition isDigit (c : ascii) : bool :=
  (48 <=? nat_of_ascii c)%nat && (nat_of_ascii c <=? 57)%nat.

Definition digitVal (c : ascii) : Z := Z.of_nat (nat_of_ascii c) - 48.

Fixpoint skipWs (l : list ascii) : list ascii :=
  match l with
  | c :: r => if isWs c then skipWs r else l
  | [] => []
  end.

Definition unescape (c : ascii) : option ascii :=
  if Ascii.eqb c "034" then Some "034"%char
  else if Ascii.eqb c "092" then Some "092"%char
  else if Ascii.eqb c "/" then Some "/"%char
  else if Ascii.eqb c "b" then Some "008"%char
  else if Ascii.eqb c "f" then Some "012"%char
  else if Ascii.eqb c "n" then Some "010"%char
  else if Ascii.eqb c "r" then Some "013"%char
  else if Ascii.eqb c "t" then Some "009"%char
  else None.

(** The characters after an opening quote, up to the closing one; [acc] is
    the string read so far, reversed. *)
Fixpoint parseStringBody (l : list ascii) (acc : string) : option (string * list ascii) :=
  match l with
  | [] => None
  | c :: r =>
      if Ascii.eqb c "034" then Some (String.rev acc, r)
      else if Ascii.eqb c "092" then
        match r with
        | e :: r' =>
            match unescape e with
            | Some x => parseStringBody r' (String x acc)
            | None => None
            end
        | [] => None
        end
      else if (nat_of_ascii c <? 32)%nat || (126 <? nat_of_ascii c)%nat then None
      else parseStringBody r (String c acc)
  end.

Fixpoint parseDigits (l : list ascii) (acc : Z) : Z * list ascii :=
  match l with
  | c :: r => if isDigit c then parseDigits r (10 * acc + digitVal c) else (acc, l)
  | [] => (acc, [])
  end.

Definition startsNumberTail (l : list ascii) : bool :=
  match l with
  | c :: _ => Ascii.eqb c "." || Ascii.eqb c "e" || Ascii.eqb c "E" || isDigit c
  | [] => false
  end.

(** An integer literal, read after an optional minus sign. *)
Definition parseInteger (neg : bool) (l : list ascii) : option (JsValue * list ascii) :=
  match l with
  | c :: r =>
      if Ascii.eqb c "0" then
        if startsNumberTail r then None else Some (JNum (S754_zero neg), r)
      else if isDigit c then
        let '(n, rest) := parseDigits l 0 in
        if startsNumberTail rest then None
        else Some (JNum (binary_normalize 53 1024 (if neg then - n else n) 0 neg), rest)
      else None
  | [] => None
  end.

Fixpoint parseValue (fuel : nat) (l : list ascii) : option (JsValue * list ascii) :=
  match fuel with
  | O => None
  | S fuel' =>
      match skipWs l with
      | "n"%char :: "u"%char :: "l"%char :: "l"%char :: r => Some (JNull, r)
      | "t"%char :: "r"%char :: "u"%char :: "e"%char :: r => Some (JBool true, r)
      | "f"%char :: "a"%char :: "l"%char :: "s"%char :: "e"%char :: r => Some (JBool false, r)
      | "034"%char :: r =>
          match parseStringBody r EmptyString with
          | Some (s, r') => Some (JStr s, r')
          | None => None
          end
      | "["%char :: r =>
          match skipWs r with
          | "]"%char :: r' => Some (JArr [], r')
          | _ => parseElements fuel' r []
          end
      | "{"%char :: r =>
          match skipWs r with
          | "}"%char :: r' => Some (JObj [], r')
          | _ => parseMembers fuel' r []
          end
      | "-"%char :: r => parseInteger true r
      | r => parseInteger false r
      end
  end
with parseElements (fuel : nat) (l : list ascii) (acc : list JsValue)
  : option (JsValue * list ascii) :=
  match fuel with
  | O => None
  | S fuel' =>
      match parseValue fuel' l with
      | Some (v, r) =>
          match skipWs r with
          | ","%char :: r' => parseElements fuel' r' (v :: acc)
          | "]"%char :: r' => Some (JArr (List.rev (v :: acc)), r')
          | _ => None
          end
      | None => None
      end
  end
with parseMembers (fuel : nat) (l : list ascii) (acc : list (string * JsValue))
  : option (JsValue * list ascii) :=
  match fuel with
  | O => None
  | S fuel' =>
      match skipWs l with
      | "034"%char :: r =>
          match parseStringBody r EmptyString with
          | Some (k, r1) =>
              match skipWs r1 with
              | ":"%char :: r2 =>
                  match parseValue fuel' r2 with
                  | Some (v, r3) =>
                      match skipWs r3 with
                      | ","%char :: r4 => parseMembers fuel' r4 ((k, v) :: acc)
                      | "}"%char :: r4 => Some (JObj (List.rev ((k, v) :: acc)), r4)
                      | _ => None
                      end
                  | None => None
                  end
              | _ => None
              end
          | None => None
          end
      | _ => None
      end
  end.

Definition parseJson (text : string) : option JsValue :=
  let l := list_ascii_of_string text in
  match parseValue (2 * length l + 2) l with
  | Some (v, rest) =>
      match skipWs rest with
      | [] => Some v
      | _ => None
      end
  | None => None
  end.

(** [s.includes(needle)] *)
Fixpoint includes (needle s : string) : bool :=
  String.prefix needle s ||
  match s with
  | EmptyString => false
  | String _ rest => includes needle rest
  end.

End Js.
Export Js.

(** ** Request paths *)

Module Http.

(** [s.split(sep)] for a one-character separator; [cur] is the piece being
    read, reversed. *)
Fixpoint splitAux (sep : ascii) (s : string) (cur : string) : list string :=
  match s with
  | EmptyString => [String.rev cur]
  | String c rest =>
      if Ascii.eqb c sep then String.rev cur :: splitAux sep rest EmptyString
      else splitAux sep rest (String c cur)
  end.

Definition split (sep : ascii) (s : string) : list string := splitAux sep s EmptyString.

(** The character [sep] does not occur in [s]. *)
Fixpoint lacksChar (sep : ascii) (s : string) : bool :=
  match s with
  | EmptyString => true
  | String c rest => negb (Ascii.eqb c sep) && lacksChar sep rest
  end.

(** An id that can stand as one path segment: not empty, no slash. *)
Definition isSegment (s : string) : bool :=
  negb (String.eqb s "") && lacksChar "/" s.

(** The path [/verb/id]. *)
Definition routePath (verb id : string) : string :=
  String "/" (verb ++ String "/" id).

(** [Boolean(s)] on a string *)
Definition nonEmpty (s : string) : bool := negb (String.eqb s "").

(** [url.pathname.split('/').filter(Boolean)] *)
Definition pathPartsOf (pathname : string) : list string :=
  List.filter nonEmpty (split "/"%char pathname).

(** [o === 'literal'] for an optional string *)
Definition isStr (o : option string) (lit : string) : bool :=
  match o with
  | Some s => String.eqb s lit
  | None => false
  end.

(** An optional string used as a condition ([pathParts[1]], [result.ts]):
    defined and not the empty string. *)
Definition truthyPart (o : option string) : option string :=
  match o with
  | Some s => if nonEmpty s then Some s else None
  | None => None
  end.

(** An incoming request once [new URL(req.url, base)] has been read and the
    body has been received in full ([req.on('end', ...)]). *)
Record Request : Type := mkRequest {
  method : string;
  pathname : string;
  body : string
}.

End Http.
Export Http.

(** ** The approval registry and its endpoint ([ApprovalManager]) *)

Module ApprovalManager.

Inductive Status : Type := pending | approved | denied.

Definition Status_eqb (a b : Status) : bool :=
  match a, b with
  | pending, pending | approved, approved | denied, denied => true
  | _, _ => false
  end.

(** [interface PendingApproval]; dates are milliseconds since the epoch and
    the optional [resolvedAt] is an [option].  [toolName] is declared a
    string, but holds whatever truthy value the request body carried. *)
Record PendingApproval : Type := mkApproval {
  approvalId : string;
  toolName : JsValue;
  input : JsValue;
  status : Status;
  registeredAt : Z;
  resolvedAt : option Z
}.

(** [private pendingApprovals = new Map<string, PendingApproval>()] *)
Abbreviation Registry := (gmap string PendingApproval).

(** The documents passed to [JSON.stringify] in the responses. *)
Inductive Payload : Type :=
| PNone                                             (* OPTIONS: empty body *)
| PHealth (pendingApprovals : nat)                  (* { status: 'ok', pendingApprovals } *)
| PRegistered (id : string)                         (* { success: true, approvalId } *)
| PFailure (error : string)                         (* { success: false, error } *)
| PStatus (st : Status) (tool : JsValue)            (* { success: true, status, toolName } *)
| PDone (message : string)                          (* { success: true, message } *)
| PSuccess                                          (* { success: true } *)
| PUnknownRoute.                                    (* { error: 'Not found' } *)

Record Response : Type := mkResponse {
  statusCode : Z;
  payload : Payload
}.

(** The [success] field of a response document, when it has one. *)
Definition successOf (p : Payload) : option bool :=
  match p with
  | PRegistered _ | PStatus _ _ | PDone _ | PSuccess => Some true
  | PFailure _ => Some false
  | PNone | PHealth _ | PUnknownRoute => None
  end.

(** [approval.status = s; approval.resolvedAt = new Date()] on the record
    stored under [id]. *)
Definition setResolved (s : Status) (now : Z) (a : PendingApproval) : PendingApproval :=
  {| approvalId := approvalId a; toolName := toolName a; input := input a;
     status := s; registeredAt := registeredAt a; resolvedAt := Some now |}.

Section Endpoint.

(** [JSON.parse] of the runtime: [None] when it throws [SyntaxError]. *)
Variable JSON_parse : string -> option JsValue.

(** The body of the [try] block of the register route, up to the record:
    [None] when [JSON.parse] or the property access throws. *)
Definition buildApproval (now : Z) (id : string) (body : string) : option PendingApproval :=
  match (if nonEmpty body then JSON_parse body else Some (JObj [])) with
  | None => None
  | Some data =>
      match getProp data "toolName", getProp data "input" with
      | Some t, Some i =>
          Some {| approvalId := id;
                  toolName := or_else t (JStr "unknown");
                  input := or_else i (JObj []);
                  status := pending;
                  registeredAt := now;
                  resolvedAt := None |}
      | _, _ => None
      end
  end.

(** The request listener of [http.createServer] in [start], run at time
    [now] on the registry [m]. *)
Definition handleRequest (now : Z) (req : Request) (m : Registry) : Response * Registry :=
  if String.eqb (method req) "OPTIONS" then (mkResponse 200 PNone, m)
  else
    let pathParts := pathPartsOf (pathname req) in
    let part0 := nth_error pathParts 0 in
    let part1 := truthyPart (nth_error pathParts 1) in
    if String.eqb (method req) "GET" && String.eqb (pathname req) "/health" then
      (mkResponse 200 (PHealth (size m)), m)
    else if String.eqb (method req) "POST" && isStr part0 "register" && bool_decide (is_Some part1) then
      let id := default "" part1 in
      match buildApproval now id (body req) with
      | Some approval => (mkResponse 200 (PRegistered id), <[id := approval]> m)
      | None => (mkResponse 400 (PFailure "Invalid JSON"), m)
      end
    else if String.eqb (method req) "GET" && isStr part0 "status" && bool_decide (is_Some part1) then
      match m !! default "" part1 with
      | Some approval => (mkResponse 200 (PStatus (status approval) (toolName approval)), m)
      | None => (mkResponse 404 (PFailure "Approval not found"), m)
      end
    else if String.eqb (method req) "POST" && isStr part0 "approve" && bool_decide (is_Some part1) then
      let id := default "" part1 in
      match m !! id with
      | Some approval => (mkResponse 200 (PDone "Approved"), <[id := setResolved approved now approval]> m)
      | None => (mkResponse 404 (PFailure "Approval not found or already processed"), m)
      end
    else if String.eqb (method req) "POST" && isStr part0 "deny" && bool_decide (is_Some part1) then
      let id := default "" part1 in
      match m !! id with
      | Some approval => (mkResponse 200 (PDone "Denied"), <[id := setResolved denied now approval]> m)
      | None => (mkResponse 404 (PFailure "Approval not found or already processed"), m)
      end
    else if String.eqb (method req) "POST" && String.eqb (pathname req) "/cleanup" then
      (mkResponse 200 PSuccess,
       match part1 with
       | Some approvalId => delete approvalId m
       | None => m
       end)
    else (mkResponse 404 PUnknownRoute, m).

End Endpoint.

(** The staleness window of the sweep: [5 * 60 * 1000] ms. *)
Definition staleAfter : Z := 5 * 60 * 1000.

(** The period of the sweep: [60 * 1000] ms. *)
Definition sweepPeriod : Z := 60 * 1000.

Definition isStale (now : Z) (a : PendingApproval) : bool :=
  registeredAt a <? now - staleAfter.

(** The callback of [setInterval] in [start]: walk the entries and delete
    the stale ones from the map being walked. *)
Definition sweepStep (now : Z) (acc : Registry) (entry : string * PendingApproval) : Registry :=
  if isStale now (snd entry) then delete (fst entry) acc else acc.

Definition sweep (now : Z) (m : Registry) : Registry :=
  fold_left (sweepStep now) (map_to_list m) m.

(** [resolveApproval(approvalId, approved)]: the returned boolean and the
    registry afterwards. *)
Definition resolveApproval (now : Z) (id : string) (isApproved : bool) (m : Registry)
  : bool * Registry :=
  match m !! id with
  | Some approval =>
      if Status_eqb (status approval) pending then
        (true, <[id := setResolved (if isApproved then approved else denied) now approval]> m)
      else (false, m)
  | None => (false, m)
  end.

(** [getApprovalStatus(approvalId)] *)
Definition getApprovalStatus (id : string) (m : Registry) : option Status :=
  status <$> m !! id.

(** *** Histories of the registry *)

(** What touches the registry: a request to the endpoint, a direct
    [resolveApproval] call, or a tick of the sweep timer. *)
Inductive Op : Type :=
| OpRequest (req : Request)
| OpResolve (id : string) (isApproved : bool)
| OpSweep.

Section Histories.

Variable JSON_parse : string -> option JsValue.

Definition step (now : Z) (op : Op) (m : Registry) : Registry :=
  match op with
  | OpRequest req => snd (handleRequest JSON_parse now req m)
  | OpResolve id isApproved => snd (resolveApproval now id isApproved m)
  | OpSweep => sweep now m
  end.

(** A history: operations with the clock reading at which each runs. *)
Definition runOps (ops : list (Z * Op)) (m : Registry) : Registry :=
  fold_left (fun acc timed => step (fst timed) (snd timed) acc) ops m.

End Histories.

(** *** The requests of the scenario on id [a1] *)

Definition registerA1 : Request := mkRequest "POST" "/register/a1" "".
Definition approveA1 : Request := mkRequest "POST" "/approve/a1" "".
Definition denyA1 : Request := mkRequest "POST" "/deny/a1" "".
Definition cleanupA1 : Request := mkRequest "POST" "/cleanup/a1" "".
Definition statusA1 : Request := mkRequest "GET" "/status/a1" "".

(** The registry after [a1] was registered at time 0 and approved at time 1. *)
Definition approvedA1 : Registry :=
  snd (handleRequest parseJson 1 approveA1 (snd (handleRequest parseJson 0 registerA1 ∅))).

(** [resolvedAt] is there exactly when the record is no longer pending. *)
Definition stamped (a : PendingApproval) : Prop :=
  is_Some (resolvedAt a) <-> status a <> pending.

Definition allStamped (m : Registry) : Prop :=
  forall id a, m !! id = Some a -> stamped a.

End ApprovalManager.

(** ** Binding the port *)

Module Net.

Inductive LogLevel : Type := LDebug | LInfo | LWarn | LError.

Record LogEntry : Type := mkLog {
  level : LogLevel;
  text : string
}.

(** What [server.listen(port)] leads to: the ['listening'] event, or an
    ['error'] event with its [code]. *)
Inductive BindResult : Type :=
| Listening
| BindError (code : string).

(** What the code does while starting: [listen] calls (with the log line of
    their callback, if they have one) and log lines. *)
Inductive Action : Type :=
| Listen (port : Z) (onListening : list LogEntry)
| Log (entry : LogEntry).

Record NetState : Type := mkNet {
  listeningOn : option Z;
  attempted : list Z;
  logged : list LogEntry
}.

Definition idle : NetState := mkNet None [] [].

(** Runs the pending actions against the ports the system grants
    ([bind]); an ['error'] event runs the registered handler [onError], whose
    actions come next.  One unit of [fuel] per action. *)
Fixpoint run (fuel : nat) (bind : Z -> BindResult) (onError : string -> list Action)
    (todo : list Action) (st : NetState) : option NetState :=
  match todo with
  | [] => Some st
  | act :: rest =>
      match fuel with
      | O => None
      | S fuel' =>
          match act with
          | Log entry =>
              run fuel' bind onError rest
                (mkNet (listeningOn st) (attempted st) (logged st ++ [entry]))
          | Listen port onListening =>
              match bind port with
              | Listening =>
                  run fuel' bind onError rest
                    (mkNet (Some port) (attempted st ++ [port]) (logged st ++ onListening))
              | BindError code =>
                  run fuel' bind onError (onError code ++ rest)
                    (mkNet (listeningOn st) (attempted st ++ [port]) (logged st))
              end
          end
      end
  end.

(** A system on which exactly the port [busy] is taken. *)
Definition onlyBusy (busy : Z) (port : Z) : BindResult :=
  if port =? busy then BindError "EADDRINUSE" else Listening.

End Net.

Module ApprovalManagerStart.
Import Net.

(** The ['error'] handler installed by [ApprovalManager.start]. *)
Definition onError (port : Z) (code : string) : list Action :=
  if String.eqb code "EADDRINUSE" then
    [Log (mkLog LError ("Port " ++ pretty port ++ " already in use. Cannot start approval server."))]
  else [Log (mkLog LError "HTTP server error")].

(** [start()]: [httpServer] tells whether a server object exists already;
    the result is the new value of that flag and the network state. *)
Definition start (fuel : nat) (bind : Z -> BindResult) (port : Z)
    (httpServer : bool) (st : NetState) : option (bool * NetState) :=
  if httpServer then
    Some (true, mkNet (listeningOn st) (attempted st)
                  (logged st ++ [mkLog LWarn "HTTP server already running"]))
  else
    match
      run fuel bind (onError port)
        [Listen port [mkLog LInfo ("Approval HTTP server listening on port " ++ pretty port)]] st
    with
    | Some st' => Some (true, st')
    | None => None
    end.

End ApprovalManagerStart.

Module EmbeddedServer.
Import Net.

(** The ['error'] handler installed by [startHttpServer] of the embedded
    permission server.  The callback given to [listen(port, cb)] was
    registered once for ['listening'] and has not run when the bind failed:
    it runs when [listen(port + 1)] succeeds, and its log line names the
    configured [port]. *)
Definition onError (port : Z) (code : string) : list Action :=
  if String.eqb code "EADDRINUSE" then
    [Log (mkLog LWarn ("Port " ++ pretty port ++ " already in use, trying next port"));
     Listen (port + 1)
       [mkLog LInfo ("Permission HTTP server listening on port " ++ pretty port)]]
  else [Log (mkLog LError "HTTP server error")].

(** [startHttpServer()], called once from the constructor. *)
Definition startHttpServer (fuel : nat) (bind : Z -> BindResult) (port : Z)
  : option NetState :=
  run fuel bind (onError port)
    [Listen port [mkLog LInfo ("Permission HTTP server listening on port " ++ pretty port)]] idle.

End EmbeddedServer.

(** ** The polling permission server ([PermissionMCPServer]) *)

Module PermissionClient.

Inductive Behavior : Type := allow | deny.

(** [interface PermissionResponse] ([updatedInput] is never set). *)
Record PermissionResponse : Type := mkPermission {
  behavior : Behavior;
  message : string
}.

(** How [fetch(...)] followed by [response.json()] ends: [fetch] rejects,
    the body is not JSON, or a document arrives. *)
Inductive FetchOutcome : Type :=
| FetchFailed
| NotJson
| Replied (result : JsValue).

(** [registerApproval]: [result.success], or [false] from the [catch]. *)
Definition registerApproval (reply : FetchOutcome) : JsValue :=
  match reply with
  | Replied result =>
      match getProp result "success" with
      | Some v => v
      | None => JBool false
      end
  | FetchFailed | NotJson => JBool false
  end.

Definition pollInterval : Z := 1000.

(** The default of [timeoutMs]: [5 * 60 * 1000]. *)
Definition defaultTimeoutMs : Z := 5 * 60 * 1000.

Definition timedOut : PermissionResponse := mkPermission deny "Permission request timed out".

(** The [try] block of one round of the polling loop: [Some] when it
    returns, [None] when the loop goes on to sleep (status pending or
    unknown, or an exception caught). *)
Definition readStatus (reply : FetchOutcome) : option PermissionResponse :=
  match reply with
  | Replied result =>
      match getProp result "success", getProp result "status" with
      | Some success, Some st =>
          if truthy success && truthy st then
            if strictEqStr st "approved" then Some (mkPermission allow "Approved by user")
            else if strictEqStr st "denied" then Some (mkPermission deny "Denied by user")
            else None
          else None
      | _, _ => None
      end
  | FetchFailed | NotJson => None
  end.

(** What the surroundings decide during a wait: the answer to the i-th
    status query, how long that query takes, and by how much the i-th
    [setTimeout(resolve, pollInterval)] overshoots. *)
Record PollEnv : Type := mkPollEnv {
  statusReply : nat -> FetchOutcome;
  fetchTime : nat -> N;
  sleepExtra : nat -> N
}.

Record PollResult : Type := mkPollResult {
  response : PermissionResponse;
  queries : nat;
  finishedAt : Z
}.

(** The [while] loop of [pollApprovalStatus]; [i] status queries have been
    issued and [Date.now()] reads [now]. *)
Fixpoint pollLoop (fuel : nat) (env : PollEnv) (startTime timeoutMs : Z) (i : nat) (now : Z)
  : option PollResult :=
  match fuel with
  | O => None
  | S fuel' =>
      if now - startTime <? timeoutMs then
        let afterFetch := now + Z.of_N (fetchTime env i) in
        match readStatus (statusReply env i) with
        | Some r => Some (mkPollResult r (S i) afterFetch)
        | None =>
            pollLoop fuel' env startTime timeoutMs (S i)
              (afterFetch + pollInterval + Z.of_N (sleepExtra env i))
        end
      else Some (mkPollResult timedOut i now)
  end.

(** [pollApprovalStatus(approvalId, timeoutMs)] entered when [Date.now()]
    reads [startTime]. *)
Definition pollApprovalStatus (fuel : nat) (env : PollEnv) (timeoutMs startTime : Z)
  : option PollResult :=
  pollLoop fuel env startTime timeoutMs 0 startTime.

(** The text of the rendered input is measured and cut by
    [inputStr.length] and [inputStr.substring]: it is kept as the sequence of
    its UTF-16 code units. *)
Definition unitsOf (literal : string) : list N :=
  List.map N_of_ascii (list_ascii_of_string literal).

(** The calls that leave the process, in order. *)
Inductive Event : Type :=
| EvRegister (id : string) (tool input : JsValue)
| EvPostMessage (channel : JsValue) (shownInput : list N)
| EvStatusQuery (id : string)
| EvUpdateMessage (b : Behavior)
| EvCleanup (id : string).

(** How [handlePermissionPrompt] ends: it returns the response (wrapped as
    text content), or an exception escapes. *)
Inductive Outcome : Type :=
| Returned (r : PermissionResponse)
| Thrown.

Record PromptEnv : Type := mkPromptEnv {
  SLACK_CONTEXT : option string;
  idTime : Z;
  idSuffix : string;
  registerReply : FetchOutcome;
  postMessage : option (option string);
  pollStart : Z;
  polling : PollEnv;
  updateThrows : bool
}.

(** [inputStr.length > 1500 ? inputStr.substring(0, 1500) + '\n... (truncated)' : inputStr] *)
Definition truncateInput (inputStr : list N) : list N :=
  if (1500 <? length inputStr)%nat then
    (firstn 1500 inputStr ++ unitsOf (String "010" "... (truncated)"))%list
  else inputStr.

Definition errorResponse : PermissionResponse :=
  mkPermission deny "Error occurred while requesting permission".

Section Prompt.

Variable JSON_parse : string -> option JsValue.

(** [JSON.stringify(input, null, 2)], as UTF-16 code units: [None] when it
    throws or yields [undefined], after which [inputStr.length] throws. *)
Variable JSON_stringify : JsValue -> option (list N).

(** [slackContextStr ? JSON.parse(slackContextStr) : {}] and the
    destructuring of [channel], [threadTs] and [user]; [None] when either
    throws. *)
Definition readSlackContext (env : PromptEnv) : option (JsValue * JsValue * JsValue) :=
  let parsed :=
    match SLACK_CONTEXT env with
    | Some str => if nonEmpty str then JSON_parse str else Some (JObj [])
    | None => Some (JObj [])
    end in
  match parsed with
  | Some ctx =>
      match getProp ctx "channel", getProp ctx "threadTs", getProp ctx "user" with
      | Some channel, Some thread_ts, Some user => Some (channel, thread_ts, user)
      | _, _, _ => None
      end
  | None => None
  end.

(** [handlePermissionPrompt(params)] with [params = { tool_name, input }]. *)
Definition handlePermissionPrompt (fuel : nat) (env : PromptEnv) (tool_name input : JsValue)
  : option (Outcome * list Event) :=
  match readSlackContext env with
  | None => Some (Thrown, [])
  | Some (channel, thread_ts, user) =>
      let approvalId := "approval_" ++ pretty (idTime env) ++ "_" ++ idSuffix env in
      let registered := registerApproval (registerReply env) in
      let sent := [EvRegister approvalId tool_name input] in
      if negb (truthy registered) then
        Some (Returned (mkPermission deny "Failed to register approval request"), sent)
      else
        match JSON_stringify input with
        | None => Some (Thrown, sent)
        | Some inputStr =>
            let post :=
              EvPostMessage (or_else (or_else channel user) (JStr "general"))
                (truncateInput inputStr) in
            match postMessage env with
            | None => Some (Returned errorResponse, (sent ++ [post; EvCleanup approvalId])%list)
            | Some ts =>
                match pollApprovalStatus fuel (polling env) defaultTimeoutMs (pollStart env) with
                | None => None
                | Some waited =>
                    let asked := (sent ++ post :: repeat (EvStatusQuery approvalId) (queries waited))%list in
                    let answer := response waited in
                    match truthyPart ts with
                    | Some _ =>
                        if updateThrows env then
                          Some (Returned errorResponse,
                                (asked ++ [EvUpdateMessage (behavior answer); EvCleanup approvalId])%list)
                        else
                          Some (Returned answer,
                                (asked ++ [EvUpdateMessage (behavior answer); EvCleanup approvalId])%list)
                    | None => Some (Returned answer, (asked ++ [EvCleanup approvalId])%list)
                    end
                end
            end
        end
  end.

End Prompt.

(** Registration fails: the transport fails, the reply cannot be read, or
    the reply does not carry a true [success]. *)
Inductive RegistrationFails : FetchOutcome -> Prop :=
| fails_transport : RegistrationFails FetchFailed
| fails_unreadable : RegistrationFails NotJson
| fails_refused (result : JsValue) :
    (forall v, getProp result "success" = Some v -> truthy v = false) ->
    RegistrationFails (Replied result).

(** The reply [{ success: true, status: 'pending' }] of the status route. *)
Definition pendingReply : FetchOutcome :=
  Replied (JObj [("success", JBool true); ("status", JStr "pending")]).

(** An approval nobody resolves, on a clock where a status query takes no
    time and every timer fires on time. *)
Definition pendingForever : PollEnv :=
  mkPollEnv (fun _ => pendingReply) (fun _ => 0%N) (fun _ => 0%N).

(** An approval nobody resolves, where the first status query takes a
    whole poll interval to be answered. *)
Definition slowFirstQuery : PollEnv :=
  mkPollEnv (fun _ => pendingReply)
    (fun i => match i with
              | O => 1000%N
              | S _ => 0%N
              end)
    (fun _ => 0%N).

(** A prompt whose registration cannot reach the endpoint. *)
Definition unreachableEndpoint : PromptEnv :=
  mkPromptEnv None 1700000000000 "k3x9q2m1z" FetchFailed (Some (Some "1.0")) 1700000000500
    pendingForever false.

End PermissionClient.

(** ** Life cycle of the approval manager ([start], [stop]) *)

Module ManagerLife.
Import Net.

(** The fields [start] and [stop] work on: whether [httpServer] is set,
    the network state, and the number of [setInterval] timers that run the
    sweep. *)
Record Manager : Type := mkManager {
  httpServer : bool;
  net : NetState;
  sweepTimers : nat
}.

Definition fresh : Manager := mkManager false idle 0.

(** [start()]: returns at once when [httpServer] is set; otherwise creates
    the server, listens, and installs one more sweep timer. *)
Definition start (fuel : nat) (bind : Z -> BindResult) (port : Z) (mgr : Manager)
  : option Manager :=
  match ApprovalManagerStart.start fuel bind port (httpServer mgr) (net mgr) with
  | Some (flag, st) =>
      Some (mkManager flag st
              (if httpServer mgr then sweepTimers mgr else S (sweepTimers mgr)))
  | None => None
  end.

(** [stop()]: closes and forgets the server, when there is one. *)
Definition stop (mgr : Manager) : Manager :=
  if httpServer mgr then
    mkManager false
      (mkNet None (attempted (net mgr))
         (logged (net mgr) ++ [mkLog LInfo "Approval HTTP server stopped"]))
      (sweepTimers mgr)
  else mgr.

(** [n] rounds of [start()] then [stop()]. *)
Fixpoint cycles (n : nat) (fuel : nat) (bind : Z -> BindResult) (port : Z) (mgr : Manager)
  : option Manager :=
  match n with
  | O => Some mgr
  | S n' =>
      match start fuel bind port mgr with
      | Some started => cycles n' fuel bind port (stop started)
      | None => None
      end
  end.

End ManagerLife.

(** ** The embedded permission server: routes and [waitForApproval] *)

Module EmbeddedWaiter.
Import PermissionClient.

(** [pendingApprovals] maps an id to the resolver of the promise made by
    [waitForApproval]; promises are numbered, and [settled] holds the value
    of those that were resolved. *)
Record State : Type := mkState {
  waiting : gmap string nat;
  settled : gmap nat PermissionResponse;
  nextPromise : nat
}.

Definition initial : State := mkState ∅ ∅ 0.

(** [resolve(r)] of promise [h]: only the first call has an effect. *)
Definition settle (h : nat) (r : PermissionResponse) (done : gmap nat PermissionResponse)
  : gmap nat PermissionResponse :=
  match done !! h with
  | Some _ => done
  | None => <[h := r]> done
  end.

Inductive Payload : Type :=
| PNone                              (* OPTIONS: empty body *)
| PResolved (message : string)       (* { success: true, message } *)
| PMissing                           (* { success: false, message: 'Approval not found or already processed' } *)
| PHealth (pendingApprovals : nat)   (* { status: 'ok', pendingApprovals } *)
| PUnknownRoute.                     (* { error: 'Not found' } *)

Record Response : Type := mkResponse {
  statusCode : Z;
  payload : Payload
}.

(** The [action] and [approvalId] of a request that enters the
    approve/deny branch: [POST], exactly two path parts, the first of them
    [approve] or [deny]. *)
Definition resolution (req : Request) : option (string * string) :=
  if String.eqb (method req) "POST" then
    match pathPartsOf (pathname req) with
    | [action; approvalId] =>
        if String.eqb action "approve" || String.eqb action "deny"
        then Some (action, approvalId) else None
    | _ => None
    end
  else None.

(** The request listener of [startHttpServer]. *)
Definition handleRequest (req : Request) (s : State) : Response * State :=
  if String.eqb (method req) "OPTIONS" then (mkResponse 200 PNone, s)
  else
    match resolution req with
    | Some (action, approvalId) =>
        let isApproved := String.eqb action "approve" in
        match waiting s !! approvalId with
        | Some h =>
            (mkResponse 200 (PResolved ("Approval " ++ action ++ "ed")),
             mkState (delete approvalId (waiting s))
               (settle h
                  (mkPermission (if isApproved then allow else deny)
                     (if isApproved then "Approved by user" else "Denied by user"))
                  (settled s))
               (nextPromise s))
        | None => (mkResponse 404 PMissing, s)
        end
    | None =>
        if String.eqb (method req) "GET" && String.eqb (pathname req) "/health" then
          (mkResponse 200 (PHealth (size (waiting s))), s)
        else (mkResponse 404 PUnknownRoute, s)
    end.

(** [waitForApproval(approvalId)]: a new promise, its resolver stored under
    the id (a timer for it is started); returns the promise. *)
Definition waitForApproval (approvalId : string) (s : State) : nat * State :=
  (nextPromise s,
   mkState (<[approvalId := nextPromise s]> (waiting s)) (settled s) (S (nextPromise s))).

(** The timeout of [waitForApproval] ([5 * 60 * 1000] ms). *)
Definition waitTimeout : Z := 5 * 60 * 1000.

(** The callback of the timer started by the wait that made promise [h]
    for [approvalId]. *)
Definition timerFires (approvalId : string) (h : nat) (s : State) : State :=
  match waiting s !! approvalId with
  | Some _ =>
      mkState (delete approvalId (waiting s)) (settle h timedOut (settled s)) (nextPromise s)
  | None => s
  end.

(** What happens to the embedded server, in order. *)
Inductive Event : Type :=
| EvRequest (req : Request)
| EvWait (approvalId : string)
| EvTimer (approvalId : string) (h : nat).

Definition step (s : State) (ev : Event) : State :=
  match ev with
  | EvRequest req => snd (handleRequest req s)
  | EvWait approvalId => snd (waitForApproval approvalId s)
  | EvTimer approvalId h => timerFires approvalId h s
  end.

Definition run (evs : list Event) (s : State) : State := fold_left step evs s.

(** The event leaves the wait for [approvalId], made with promise [h],
    in order: it is not a second wait on the same id, and a timer on that id
    is the timer of [h]. *)
Definition respects (approvalId : string) (h : nat) (ev : Event) : Prop :=
  match ev with
  | EvRequest _ => True
  | EvWait other => other <> approvalId
  | EvTimer other h' => other = approvalId -> h' = h
  end.

(** The wait on [id] with promise [h] is still registered, or [h] is
    settled. *)
Definition answeredOrWaiting (id : string) (h : nat) (s : State) : Prop :=
  waiting s !! id = Some h \/ is_Some (settled s !! h).

End EmbeddedWaiter.

(** ** Waiter and endpoint together *)

Module CrossProcess.
Import ApprovalManager PermissionClient.

(** The [status] strings of the wire. *)
Definition statusName (st : Status) : string :=
  match st with
  | pending => "pending"
  | approved => "approved"
  | denied => "denied"
  end.

(** How one exchange with the endpoint goes. *)
Inductive Transport : Type :=
| RequestLost      (* the request does not reach the endpoint *)
| ReplyLost        (* the endpoint handles the request, its answer does not arrive *)
| Delivered.

Section Wire.

Variable JSON_parse : string -> option JsValue.

(** What a value becomes on its way through [JSON.stringify] on the server
    and [response.json()] on the client; [None] when the field is dropped. *)
Variable wire : JsValue -> option JsValue.

(** URL parsing, of the runtime: the [url.pathname] the listener sees for
    the target the client wrote after the host ([fetch] parses it, and
    [new URL(req.url, base)] parses what arrives); [None] when parsing
    throws.  A [?] or [#] in the target ends the path, other characters may
    be escaped or dropped. *)
Variable URL_pathname : string -> option string.

(** What [response.json()] yields for a response of the endpoint; [None]
    for an empty body. *)
Definition document (p : Payload) : option JsValue :=
  match p with
  | PNone => None
  | PHealth n =>
      Some (JObj [("status", JStr "ok");
                  ("pendingApprovals", JNum (binary_normalize 53 1024 (Z.of_nat n) 0 false))])
  | PRegistered id => Some (JObj [("success", JBool true); ("approvalId", JStr id)])
  | PFailure error => Some (JObj [("success", JBool false); ("error", JStr error)])
  | PStatus st tool =>
      Some (JObj (("success", JBool true) :: ("status", JStr (statusName st)) ::
                  match wire tool with
                  | Some v => [("toolName", v)]
                  | None => []
                  end))
  | PDone message => Some (JObj [("success", JBool true); ("message", JStr message)])
  | PSuccess => Some (JObj [("success", JBool true)])
  | PUnknownRoute => Some (JObj [("error", JStr "Not found")])
  end.

Definition received (r : ApprovalManager.Response) : FetchOutcome :=
  match document (payload r) with
  | Some v => Replied v
  | None => NotJson
  end.

(** [fetch(.../status/${approvalId})] answered from the registry [m]; the
    id is pasted into the target and goes through URL parsing. *)
Definition fetchStatus (now : Z) (id : string) (m : Registry) : FetchOutcome :=
  match URL_pathname (routePath "status" id) with
  | Some path => received (fst (handleRequest JSON_parse now (mkRequest "GET" path "") m))
  | None => FetchFailed
  end.

(** [fetch(.../register/${approvalId}, { method: 'POST', body })] against
    the endpoint on the registry [m]: what the client gets and the registry
    afterwards. *)
Definition fetchRegister (transport : Transport) (now : Z) (id content : string) (m : Registry)
  : FetchOutcome * Registry :=
  match transport, URL_pathname (routePath "register" id) with
  | RequestLost, _ => (FetchFailed, m)
  | _, None => (FetchFailed, m)
  | ReplyLost, Some path =>
      (FetchFailed, snd (handleRequest JSON_parse now (mkRequest "POST" path content) m))
  | Delivered, Some path =>
      let answered := handleRequest JSON_parse now (mkRequest "POST" path content) m in
      (received (fst answered), snd answered)
  end.

(** A wait whose i-th status query is answered from the registry as it is
    then ([registries i], read at clock [at_ i]). *)
Definition against (id : string) (registries : nat -> Registry) (at_ : nat -> Z)
    (latency overshoot : nat -> N) : PollEnv :=
  mkPollEnv (fun i => fetchStatus (at_ i) id (registries i)) latency overshoot.

End Wire.

End CrossProcess.

(** ** Vocabulary of the further properties *)

Module Vocabulary.
Import ApprovalManager PermissionClient.

(** Operations that are not the sweep. *)
Definition notSweep (op : Op) : Prop :=
  match op with
  | OpSweep => False
  | _ => True
  end.

(** Operations that go through [resolveApproval] or only read: no
    [POST] request and no sweep. *)
Definition guarded (op : Op) : Prop :=
  match op with
  | OpResolve _ _ => True
  | OpRequest req => method req = "GET" \/ method req = "OPTIONS"
  | OpSweep => False
  end.

(** The clock readings of a history never go back, starting from [t]. *)
Fixpoint ticking (t : Z) (ops : list (Z * Op)) : Prop :=
  match ops with
  | [] => True
  | (t', _) :: rest => t <= t' /\ ticking t' rest
  end.

(** The clock reading after the history. *)
Definition lastTick (t : Z) (ops : list (Z * Op)) : Z :=
  fold_left (fun _ timed => fst timed) ops t.

(** The stamps of a record are in order and not after [t]. *)
Definition timely (t : Z) (a : PendingApproval) : Prop :=
  registeredAt a <= t /\
  forall r, resolvedAt a = Some r -> registeredAt a <= r /\ r <= t.

(** [Date.now()] when the loop of [pollApprovalStatus] tests its condition
    for the [k]-th time after [k] rounds without a return. *)
Fixpoint roundStart (env : PollEnv) (startTime : Z) (k : nat) : Z :=
  match k with
  | O => startTime
  | S j =>
      roundStart env startTime j + Z.of_N (fetchTime env j) + pollInterval
      + Z.of_N (sleepExtra env j)
  end.

(** The status queries among the calls of a prompt. *)
Definition isStatusQuery (ev : Event) : bool :=
  match ev with
  | EvStatusQuery _ => true
  | _ => false
  end.

Definition statusQueries (sent : list Event) : nat :=
  length (List.filter isStatusQuery sent).

(** The reply carries a truthy [success] and the status ['approved']. *)
Definition saysApproved (reply : FetchOutcome) : Prop :=
  exists result success,
    reply = Replied result /\
    getProp result "success" = Some success /\ truthy success = true /\
    getProp result "status" = Some (JStr "approved").

(** A registry that holds [a1] approved (at time 0 and 1) and [b2]
    pending since time 400000. *)
Definition twoRecords : Registry :=
  snd (handleRequest parseJson 400000 (mkRequest "POST" "/register/b2" "") approvedA1).

(** The reply [{ success: true, status: 'approved' }] of the status route. *)
Definition approvedReply : FetchOutcome :=
  Replied (JObj [("success", JBool true); ("status", JStr "approved")]).

(** A wait whose first query fails, whose second finds the approval
    pending and whose later ones find it approved, on the exact clock. *)
Definition flakyThenApproved : PollEnv :=
  mkPollEnv
    (fun i => match i with
              | O => FetchFailed
              | S O => pendingReply
              | _ => approvedReply
              end)
    (fun _ => 0%N) (fun _ => 0%N).

(** A prompt that registers, posts, and is approved at its third query. *)
Definition approvedPrompt : PromptEnv :=
  mkPromptEnv None 1700000000000 "k3x9q2m1z" (Replied (JObj [("success", JBool true)]))
    (Some (Some "1700000000.000100")) 1700000000500 flakyThenApproved false.

(** The registry that holds [a1] pending since time 0. *)
Definition pendingA1 : Registry := snd (handleRequest parseJson 0 registerA1 ∅).

(** [a1] is pending at the first status query and approved from the second. *)
Definition approvedLater (i : nat) : Registry :=
  match i with
  | O => pendingA1
  | S _ => approvedA1
  end.

(** A reference for URL parsing on targets made of letters, digits,
    [_], [/], [?] and [#]: the target up to its first [?] or [#]. *)
Fixpoint beforeQuery (target : string) : string :=
  match target with
  | EmptyString => EmptyString
  | String c rest =>
      if Ascii.eqb c "?" || Ascii.eqb c "#" then EmptyString
      else String c (beforeQuery rest)
  end.

Definition plainPathname (target : string) : option string := Some (beforeQuery target).

(** A wire that hands every value over unchanged. *)
Definition sameWire (v : JsValue) : option JsValue := Some v.

(** A renderer of inputs that always prints [{}]. *)
Definition printsEmpty (v : JsValue) : option (list N) := Some (unitsOf "{}").

(** The embedded server with one wait, on [a1], in progress. *)
Definition waitingA1 : EmbeddedWaiter.State :=
  snd (EmbeddedWaiter.waitForApproval "a1" EmbeddedWaiter.initial).

(** A history on [a1]: registered, approved through the route, denied
    through [resolveApproval], then a sweep. *)
Definition historyA1 : list (Z * Op) :=
  [(0, OpRequest registerA1); (1, OpRequest approveA1); (2, OpResolve "a1" false); (3, OpSweep)].

End Vocabulary.

(** * Properties *)

(** ** Paths *)

Section PathFacts.

Lemma pathParts_nonEmpty (pathname part : string) :
  In part (pathPartsOf pathname) -> nonEmpty part = true.
Proof.
  unfold pathPartsOf. intros Hin. apply filter_In in Hin. tauto.
Qed.

Lemma truthyPart_of_path (pathname first second : string) (rest : list string) :
  pathPartsOf pathname = first :: second :: rest ->
  truthyPart (nth_error (pathPartsOf pathname) 1) = Some second.
Proof.
  intros Hparts. rewrite Hparts. simpl.
  rewrite (pathParts_nonEmpty pathname second); [reflexivity|].
  rewrite Hparts. simpl. auto.
Qed.

Lemma append_cons (c : ascii) (s t : string) : String c s ++ t = String c (s ++ t).
Proof. reflexivity. Qed.

Lemma rev_app_rev_app (s a b : string) :
  String.rev_app (String.rev_app s a) b = String.rev_app a (s ++ b).
Proof.
  revert a. induction s as [|c s IH]; intros a.
  - reflexivity.
  - rewrite append_cons. simpl. rewrite IH. reflexivity.
Qed.

Lemma append_empty_r (s : string) : s ++ "" = s.
Proof.
  induction s as [|c s IH]; [reflexivity|]. rewrite append_cons, IH. reflexivity.
Qed.

Lemma rev_rev_app (s : string) : String.rev (String.rev_app s "") = s.
Proof. unfold String.rev. rewrite rev_app_rev_app. simpl. apply append_empty_r. Qed.

(** Reading a piece without separator up to the next separator. *)
Lemma splitAux_piece (sep : ascii) (piece rest cur : string) :
  lacksChar sep piece = true ->
  splitAux sep (piece ++ String sep rest) cur =
  String.rev (String.rev_app piece cur) :: splitAux sep rest "".
Proof.
  revert cur. induction piece as [|c piece IH]; intros cur Hlacks.
  - change ("" ++ String sep rest) with (String sep rest). simpl.
    rewrite Ascii.eqb_refl. reflexivity.
  - rewrite append_cons. simpl in *.
    apply andb_true_iff in Hlacks as [Hc Hpiece].
    apply negb_true_iff in Hc. rewrite Hc. apply IH, Hpiece.
Qed.

(** Reading the last piece. *)
Lemma splitAux_last (sep : ascii) (piece cur : string) :
  lacksChar sep piece = true ->
  splitAux sep piece cur = [String.rev (String.rev_app piece cur)].
Proof.
  revert cur. induction piece as [|c piece IH]; intros cur Hlacks; simpl in *.
  - reflexivity.
  - apply andb_true_iff in Hlacks as [Hc Hpiece].
    apply negb_true_iff in Hc. rewrite Hc. apply IH, Hpiece.
Qed.

(** [/verb/id] splits into the verb and the id. *)
Lemma pathParts_routePath (verb id : string) :
  isSegment verb = true -> isSegment id = true ->
  pathPartsOf (routePath verb id) = [verb; id].
Proof.
  unfold isSegment. intros Hverb Hid.
  apply andb_true_iff in Hverb as [Hverb Hv]. apply andb_true_iff in Hid as [Hid Hi].
  unfold pathPartsOf, routePath, split. simpl.
  rewrite (splitAux_piece "/" verb id "" Hv), (splitAux_last "/" id "" Hi), !rev_rev_app.
  simpl. unfold nonEmpty. rewrite Hverb, Hid. reflexivity.
Qed.

End PathFacts.

(** ** The registry *)

Module RegistryFacts.
Import ApprovalManager.

Section Sweep.

Variable now : Z.

Lemma sweepStep_gone (entries : list (string * PendingApproval)) (acc : Registry) (id : string) :
  acc !! id = None -> fold_left (sweepStep now) entries acc !! id = None.
Proof.
  revert acc. induction entries as [|[k a] entries IH]; intros acc Hnone; simpl.
  - exact Hnone.
  - apply IH. unfold sweepStep. simpl. destruct (isStale now a); [|exact Hnone].
    destruct (decide (k = id)) as [->|Hne].
    + apply lookup_delete_eq.
    + rewrite lookup_delete_ne; auto.
Qed.

Lemma sweepStep_stale (entries : list (string * PendingApproval)) (acc : Registry)
    (id : string) (a : PendingApproval) :
  In (id, a) entries -> isStale now a = true ->
  fold_left (sweepStep now) entries acc !! id = None.
Proof.
  revert acc. induction entries as [|[k b] entries IH]; intros acc Hin Hstale; simpl.
  - destruct Hin.
  - destruct Hin as [Heq|Hin].
    + inversion Heq; subst. apply sweepStep_gone.
      unfold sweepStep. simpl. rewrite Hstale. apply lookup_delete_eq.
    + apply IH; assumption.
Qed.

Lemma sweepStep_fresh (entries : list (string * PendingApproval)) (acc : Registry) (id : string) :
  (forall a, In (id, a) entries -> isStale now a = false) ->
  fold_left (sweepStep now) entries acc !! id = acc !! id.
Proof.
  revert acc. induction entries as [|[k b] entries IH]; intros acc Hfresh; simpl.
  - reflexivity.
  - rewrite IH by (intros a Hin; apply Hfresh; right; exact Hin).
    unfold sweepStep. simpl. destruct (isStale now b) eqn:Hb; [|reflexivity].
    destruct (decide (k = id)) as [->|Hne].
    + rewrite (Hfresh b) in Hb by (left; reflexivity). discriminate.
    + rewrite lookup_delete_ne; auto.
Qed.

Lemma sweep_lookup (m : Registry) (id : string) :
  sweep now m !! id =
  match m !! id with
  | Some a => if isStale now a then None else Some a
  | None => None
  end.
Proof.
  unfold sweep.
  destruct (m !! id) as [a|] eqn:Hm.
  - destruct (isStale now a) eqn:Hstale.
    + apply (sweepStep_stale _ _ _ a); [|exact Hstale].
      apply list_elem_of_In, elem_of_map_to_list. exact Hm.
    + rewrite sweepStep_fresh; [exact Hm|].
      intros b Hin. apply list_elem_of_In, elem_of_map_to_list in Hin.
      rewrite Hm in Hin. inversion Hin; subst. exact Hstale.
  - rewrite sweepStep_fresh; [exact Hm|].
    intros b Hin. apply list_elem_of_In, elem_of_map_to_list in Hin.
    rewrite Hm in Hin. discriminate.
Qed.

End Sweep.

(** C6: one run of the sweep removes exactly the records whose
    [registeredAt] is more than five minutes before the clock reading, and
    every other record is found afterwards as it was; the status of a record
    plays no part. *)
Theorem sweep_removes_exactly_stale (now : Z) (m : Registry) (id : string) :
  sweep now m !! id =
  match m !! id with
  | Some a => if registeredAt a <? now - 5 * 60 * 1000 then None else Some a
  | None => None
  end.
Proof. rewrite sweep_lookup. reflexivity. Qed.

(** *** The [resolvedAt] invariant *)

Lemma allStamped_empty : allStamped ∅.
Proof. intros id a Hlook. rewrite lookup_empty in Hlook. discriminate. Qed.

Lemma allStamped_insert (m : Registry) (id : string) (a : PendingApproval) :
  allStamped m -> stamped a -> allStamped (<[id := a]> m).
Proof.
  intros Hm Ha k b Hlook. destruct (decide (id = k)) as [->|Hne].
  - rewrite lookup_insert_eq in Hlook. inversion Hlook; subst. exact Ha.
  - rewrite lookup_insert_ne in Hlook by exact Hne. eapply Hm; eassumption.
Qed.

Lemma allStamped_delete (m : Registry) (id : string) :
  allStamped m -> allStamped (delete id m).
Proof.
  intros Hm k b Hlook. destruct (decide (id = k)) as [->|Hne].
  - rewrite lookup_delete_eq in Hlook. discriminate.
  - rewrite lookup_delete_ne in Hlook by exact Hne. eapply Hm; eassumption.
Qed.

Lemma stamped_setResolved (s : Status) (now : Z) (a : PendingApproval) :
  s <> pending -> stamped (setResolved s now a).
Proof. intros Hs. unfold stamped. simpl. split; [intros _; exact Hs | intros _; eauto]. Qed.

Lemma buildApproval_stamped (parse : string -> option JsValue) (now : Z) (id body : string)
    (a : PendingApproval) :
  buildApproval parse now id body = Some a -> stamped a.
Proof.
  unfold buildApproval. intros Hbuild.
  repeat case_match; try discriminate; inversion Hbuild; subst;
    unfold stamped; simpl; (split; [intros [x Hx]; discriminate | intros Hne; congruence]).
Qed.

Section Invariant.

Variable JSON_parse : string -> option JsValue.

Lemma handleRequest_stamped (now : Z) (req : Request) (m : Registry) :
  allStamped m -> allStamped (snd (handleRequest JSON_parse now req m)).
Proof.
  intros Hm. unfold handleRequest.
  repeat (case_match; simpl; try assumption);
    try (apply allStamped_insert; [assumption|]);
    try (apply stamped_setResolved; discriminate);
    try (eapply buildApproval_stamped; eassumption);
    try (apply allStamped_delete; assumption).
Qed.

Lemma resolveApproval_stamped (now : Z) (id : string) (isApproved : bool) (m : Registry) :
  allStamped m -> allStamped (snd (resolveApproval now id isApproved m)).
Proof.
  intros Hm. unfold resolveApproval.
  repeat (case_match; simpl; try assumption);
    (apply allStamped_insert; [assumption|]); apply stamped_setResolved; discriminate.
Qed.

Lemma sweep_stamped (now : Z) (m : Registry) : allStamped m -> allStamped (sweep now m).
Proof.
  intros Hm id a Hlook. rewrite sweep_lookup in Hlook.
  destruct (m !! id) as [b|] eqn:Hb; [|discriminate].
  destruct (isStale now b); [discriminate|]. inversion Hlook; subst.
  eapply Hm; eassumption.
Qed.

Lemma step_stamped (now : Z) (op : Op) (m : Registry) :
  allStamped m -> allStamped (step JSON_parse now op m).
Proof.
  destruct op; simpl;
    auto using handleRequest_stamped, resolveApproval_stamped, sweep_stamped.
Qed.

Lemma runOps_stamped (ops : list (Z * Op)) (m : Registry) :
  allStamped m -> allStamped (runOps JSON_parse ops m).
Proof.
  revert m. induction ops as [|[now op] ops IH]; intros m Hm; simpl.
  - exact Hm.
  - apply IH, step_stamped, Hm.
Qed.

(** C7: in the registry reached from the empty one by any history of
    requests (register, approve, deny, cleanup, ...), [resolveApproval]
    calls and sweeps, every record has [resolvedAt] if and only if its
    status is not [pending]. *)
Theorem resolvedAt_iff_not_pending (ops : list (Z * Op)) (id : string) (a : PendingApproval) :
  runOps JSON_parse ops ∅ !! id = Some a ->
  (is_Some (resolvedAt a) <-> status a <> pending).
Proof.
  intros Hlook. exact (runOps_stamped ops ∅ allStamped_empty id a Hlook).
Qed.

End Invariant.

End RegistryFacts.

(** ** The endpoint *)

Module EndpointFacts.
Import ApprovalManager.

Section Routes.

Variable JSON_parse : string -> option JsValue.

Lemma route_register (now : Z) (req : Request) (id : string) (rest : list string) (m : Registry) :
  method req = "POST" ->
  pathPartsOf (pathname req) = "register" :: id :: rest ->
  handleRequest JSON_parse now req m =
  match buildApproval JSON_parse now id (body req) with
  | Some approval => (mkResponse 200 (PRegistered id), <[id := approval]> m)
  | None => (mkResponse 400 (PFailure "Invalid JSON"), m)
  end.
Proof.
  intros Hmethod Hparts. unfold handleRequest.
  rewrite (truthyPart_of_path _ _ _ _ Hparts), Hmethod, Hparts. reflexivity.
Qed.

Lemma route_approve (now : Z) (req : Request) (id : string) (rest : list string) (m : Registry) :
  method req = "POST" ->
  pathPartsOf (pathname req) = "approve" :: id :: rest ->
  handleRequest JSON_parse now req m =
  match m !! id with
  | Some approval =>
      (mkResponse 200 (PDone "Approved"), <[id := setResolved approved now approval]> m)
  | None => (mkResponse 404 (PFailure "Approval not found or already processed"), m)
  end.
Proof.
  intros Hmethod Hparts. unfold handleRequest.
  rewrite (truthyPart_of_path _ _ _ _ Hparts), Hmethod, Hparts. reflexivity.
Qed.

Lemma route_deny (now : Z) (req : Request) (id : string) (rest : list string) (m : Registry) :
  method req = "POST" ->
  pathPartsOf (pathname req) = "deny" :: id :: rest ->
  handleRequest JSON_parse now req m =
  match m !! id with
  | Some approval =>
      (mkResponse 200 (PDone "Denied"), <[id := setResolved denied now approval]> m)
  | None => (mkResponse 404 (PFailure "Approval not found or already processed"), m)
  end.
Proof.
  intros Hmethod Hparts. unfold handleRequest.
  rewrite (truthyPart_of_path _ _ _ _ Hparts), Hmethod, Hparts. reflexivity.
Qed.

(** The test of the cleanup route is [url.pathname === '/cleanup']: a
    path that carries an id is not routed there. *)
Lemma route_cleanup_with_id (now : Z) (req : Request) (id : string) (rest : list string)
    (m : Registry) :
  method req = "POST" ->
  pathPartsOf (pathname req) = "cleanup" :: id :: rest ->
  handleRequest JSON_parse now req m = (mkResponse 404 PUnknownRoute, m).
Proof.
  intros Hmethod Hparts. unfold handleRequest.
  rewrite (truthyPart_of_path _ _ _ _ Hparts), Hmethod, Hparts.
  destruct (String.eqb (pathname req) "/cleanup") eqn:Hpath.
  - apply String.eqb_eq in Hpath. rewrite Hpath in Hparts. discriminate.
  - reflexivity.
Qed.

(** No request removes a record: the [delete] of the cleanup route is
    reached with [pathParts = ['cleanup']] only. *)
Lemma handleRequest_keeps_records (now : Z) (req : Request) (m : Registry) (id : string) :
  is_Some (m !! id) -> is_Some (snd (handleRequest JSON_parse now req m) !! id).
Proof.
  intros Hid. destruct req as [meth path content]. unfold handleRequest. simpl.
  destruct (String.eqb path "/cleanup") eqn:Hpath.
  - apply String.eqb_eq in Hpath. subst path. simpl. rewrite !andb_false_r.
    repeat (case_match; simpl; try assumption).
  - rewrite andb_false_r.
    repeat (case_match; simpl; try assumption);
      (rewrite lookup_insert; case_decide; eauto).
Qed.

(** *** Resolving *)

(** [resolveApproval] leaves a record that is no longer pending alone. *)
Lemma resolveApproval_settled (now : Z) (id : string) (isApproved : bool) (m : Registry)
    (a : PendingApproval) :
  m !! id = Some a -> status a <> pending ->
  resolveApproval now id isApproved m = (false, m).
Proof.
  intros Hid Hst. unfold resolveApproval. rewrite Hid.
  destruct (status a); [congruence | reflexivity | reflexivity].
Qed.

(** [resolveApproval(id, true)] then [resolveApproval(id, false)]: the
    first call wins, the second returns [false] and changes nothing. *)
Lemma resolveApproval_first_wins (t1 t2 : Z) (id : string) (m : Registry) (a : PendingApproval) :
  m !! id = Some a -> status a = pending ->
  let first := resolveApproval t1 id true m in
  let second := resolveApproval t2 id false (snd first) in
  fst first = true /\ fst second = false /\ snd second = snd first /\
  snd second !! id = Some (setResolved approved t1 a).
Proof.
  intros Hid Hst.
  assert (Hfirst : resolveApproval t1 id true m
                   = (true, <[id := setResolved approved t1 a]> m)).
  { unfold resolveApproval. rewrite Hid, Hst. reflexivity. }
  cbv zeta. rewrite Hfirst. simpl.
  rewrite (resolveApproval_settled t2 id false _ (setResolved approved t1 a)).
  - simpl. rewrite lookup_insert_eq. auto.
  - apply lookup_insert_eq.
  - simpl. discriminate.
Qed.

(** The deny route writes [denied] whatever the status was. *)
Lemma deny_route_ignores_status (now : Z) (req : Request) (id : string) (rest : list string)
    (m : Registry) (a : PendingApproval) :
  method req = "POST" ->
  pathPartsOf (pathname req) = "deny" :: id :: rest ->
  m !! id = Some a ->
  handleRequest JSON_parse now req m =
  (mkResponse 200 (PDone "Denied"), <[id := setResolved denied now a]> m).
Proof.
  intros Hmethod Hparts Hid. rewrite (route_deny now req id rest m Hmethod Hparts), Hid.
  reflexivity.
Qed.

(** The approve route writes [approved] whatever the status was. *)
Lemma approve_route_ignores_status (now : Z) (req : Request) (id : string) (rest : list string)
    (m : Registry) (a : PendingApproval) :
  method req = "POST" ->
  pathPartsOf (pathname req) = "approve" :: id :: rest ->
  m !! id = Some a ->
  handleRequest JSON_parse now req m =
  (mkResponse 200 (PDone "Approved"), <[id := setResolved approved now a]> m).
Proof.
  intros Hmethod Hparts Hid. rewrite (route_approve now req id rest m Hmethod Hparts), Hid.
  reflexivity.
Qed.

(** [POST /cleanup/{id}], for every id: not routed, nothing removed. *)
Lemma cleanup_with_any_id (now : Z) (id content : string) (m : Registry) :
  isSegment id = true ->
  handleRequest JSON_parse now (mkRequest "POST" (routePath "cleanup" id) content) m =
  (mkResponse 404 PUnknownRoute, m).
Proof.
  intros Hid. apply (route_cleanup_with_id now _ id []); [reflexivity|].
  apply pathParts_routePath; [reflexivity | exact Hid].
Qed.

(** [POST /deny/{id}] on a stored record, for every id and every status. *)
Lemma deny_with_any_id (now : Z) (id content : string) (m : Registry) (a : PendingApproval) :
  isSegment id = true ->
  m !! id = Some a ->
  handleRequest JSON_parse now (mkRequest "POST" (routePath "deny" id) content) m =
  (mkResponse 200 (PDone "Denied"), <[id := setResolved denied now a]> m).
Proof.
  intros Hid Hstored. apply (deny_route_ignores_status now _ id []); [reflexivity| |exact Hstored].
  apply pathParts_routePath; [reflexivity | exact Hid].
Qed.

(** *** Health *)

(** C9: [GET /health] answers with the number of stored records and leaves
    the registry alone; a record that is already approved or denied is one
    of the records counted. *)
Theorem health_counts_every_record (now : Z) (content : string) (m : Registry) :
  handleRequest JSON_parse now (mkRequest "GET" "/health" content) m =
    (mkResponse 200 (PHealth (size m)), m) /\
  (forall id a, m !! id = Some a -> status a <> pending ->
     size m = S (size (delete id m))).
Proof.
  split; [reflexivity|].
  intros id a Hid _. rewrite <- (insert_delete_id m id a Hid) at 1.
  apply map_size_insert_None, lookup_delete_eq.
Qed.

(** *** Registering *)

(** C4, as the code has it: a [POST /register/{id}] whose body is not
    empty and is rejected by [JSON.parse] is answered 400 [{ success: false, error: 'Invalid JSON' }]
    and the registry is left as it was. *)
Theorem malformed_register_rejected (now : Z) (req : Request) (id : string)
    (rest : list string) (m : Registry) :
  method req = "POST" ->
  pathPartsOf (pathname req) = "register" :: id :: rest ->
  body req <> "" ->
  JSON_parse (body req) = None ->
  handleRequest JSON_parse now req m = (mkResponse 400 (PFailure "Invalid JSON"), m) /\
  successOf (PFailure "Invalid JSON") = Some false.
Proof.
  intros Hmethod Hparts Hbody Hparse. split; [|reflexivity].
  rewrite (route_register now req id rest m Hmethod Hparts).
  unfold buildApproval, nonEmpty.
  destruct (String.eqb_spec (body req) "") as [Hempty|_]; [contradiction|].
  simpl. rewrite Hparse. reflexivity.
Qed.

(** C10, as the code has it: a [POST /register/{id}] whose body is empty,
    or is JSON text for a value other than [null], is answered
    [{ success: true, approvalId }] and stores a pending record under the
    id; a missing [toolName] becomes ['unknown'] and a missing [input]
    becomes [{}]. *)
Theorem register_defaults (now : Z) (req : Request) (id : string) (rest : list string)
    (m : Registry) (data : JsValue) :
  method req = "POST" ->
  pathPartsOf (pathname req) = "register" :: id :: rest ->
  (body req = "" /\ data = JObj []) \/ (body req <> "" /\ JSON_parse (body req) = Some data) ->
  isNullish data = false ->
  exists a,
    handleRequest JSON_parse now req m = (mkResponse 200 (PRegistered id), <[id := a]> m) /\
    successOf (PRegistered id) = Some true /\
    approvalId a = id /\ status a = pending /\ registeredAt a = now /\ resolvedAt a = None /\
    (lacks "toolName" data -> toolName a = JStr "unknown") /\
    (lacks "input" data -> input a = JObj []).
Proof.
  intros Hmethod Hparts Hbody Hdata.
  rewrite (route_register now req id rest m Hmethod Hparts).
  assert (Hparsed : (if nonEmpty (body req) then JSON_parse (body req) else Some (JObj []))
                    = Some data).
  { unfold nonEmpty. destruct Hbody as [[Hempty ->]|[Hfull Hparse]].
    - rewrite Hempty. reflexivity.
    - destruct (String.eqb_spec (body req) "") as [Hempty|_]; [contradiction|exact Hparse]. }
  unfold buildApproval. rewrite Hparsed.
  destruct data as [| |b|x|str|xs|fields]; try discriminate; simpl;
    eexists; (split; [reflexivity|]); simpl; repeat split; try reflexivity.
  - intros Hlack. simpl in Hlack. rewrite Hlack. reflexivity.
  - intros Hlack. simpl in Hlack. rewrite Hlack. reflexivity.
Qed.

End Routes.

End EndpointFacts.

(** ** Runs of the endpoint with the reference parser *)

Module EndpointRuns.
Import ApprovalManager.

Lemma approvedA1_lookup :
  approvedA1 !! "a1" = Some (mkApproval "a1" (JStr "unknown") (JObj []) approved 0 (Some 1)).
Proof. vm_compute. reflexivity. Qed.

(** C1, where the routes depart from it: [a1] is registered and approved;
    a later [POST /deny/a1] is answered [{ success: true }] and replaces the
    stored status [approved] by [denied] (and the [resolvedAt] stamp). *)
Theorem deny_route_overwrites_approved :
  status <$> approvedA1 !! "a1" = Some approved /\
  handleRequest parseJson 2 denyA1 approvedA1 =
    (mkResponse 200 (PDone "Denied"),
     <["a1" := mkApproval "a1" (JStr "unknown") (JObj []) denied 0 (Some 2)]> approvedA1) /\
  successOf (PDone "Denied") = Some true.
Proof.
  split; [rewrite approvedA1_lookup; reflexivity|]. split; [|reflexivity].
  rewrite (EndpointFacts.deny_route_ignores_status parseJson 2 denyA1 "a1" [] approvedA1 _
             eq_refl eq_refl approvedA1_lookup).
  reflexivity.
Qed.

(** C2, where the route departs from it: with [a1] in the registry,
    [POST /cleanup/a1] is answered 404 [{ error: 'Not found' }], the record
    stays, and the next [GET /status/a1] still finds it. *)
Theorem cleanup_route_misses_id :
  handleRequest parseJson 2 cleanupA1 approvedA1 = (mkResponse 404 PUnknownRoute, approvedA1) /\
  fst (handleRequest parseJson 3 statusA1 approvedA1) =
    mkResponse 200 (PStatus approved (JStr "unknown")).
Proof.
  split.
  - apply (EndpointFacts.route_cleanup_with_id parseJson 2 cleanupA1 "a1" []); reflexivity.
  - vm_compute. reflexivity.
Qed.

(** Against C10 as worded: the body [null] is JSON text without a
    [toolName], and registering with it is refused with 400 and stores
    nothing. *)
Lemma register_null_body_refused :
  parseJson "null" = Some JNull /\
  lacks "toolName" JNull /\
  handleRequest parseJson 0 (mkRequest "POST" "/register/a1" "null") ∅ =
    (mkResponse 400 (PFailure "Invalid JSON"), ∅) /\
  successOf (PFailure "Invalid JSON") = Some false.
Proof.
  split; [reflexivity|]. split; [exact I|]. split; [|reflexivity].
  rewrite (EndpointFacts.route_register parseJson 0 _ "a1" []); reflexivity.
Qed.

(** Against C4 as worded: the empty body is not JSON text
    ([JSON.parse] rejects it), yet registering with it is answered 200 and
    replaces the stored record of [a1]. *)
Lemma register_empty_body_accepted :
  parseJson "" = None /\
  body registerA1 = "" /\
  handleRequest parseJson 9 registerA1 approvedA1 =
    (mkResponse 200 (PRegistered "a1"),
     <["a1" := mkApproval "a1" (JStr "unknown") (JObj []) pending 9 None]> approvedA1) /\
  approvedA1 !! "a1" = Some (mkApproval "a1" (JStr "unknown") (JObj []) approved 0 (Some 1)).
Proof.
  split; [reflexivity|]. split; [reflexivity|]. split; [|exact approvedA1_lookup].
  rewrite (EndpointFacts.route_register parseJson 9 registerA1 "a1" []); reflexivity.
Qed.

(** C4 at work: the body [{] sent for [a1] while [a1] is stored. *)
Lemma malformed_register_rejected_witness :
  method (mkRequest "POST" "/register/a1" "{") = "POST" /\
  pathPartsOf "/register/a1" = ["register"; "a1"] /\
  "{" <> "" /\
  parseJson "{" = None /\
  handleRequest parseJson 5 (mkRequest "POST" "/register/a1" "{") approvedA1 =
    (mkResponse 400 (PFailure "Invalid JSON"), approvedA1) /\
  successOf (PFailure "Invalid JSON") = Some false.
Proof.
  assert (Hbody : "{" <> "") by discriminate.
  do 4 (split; [first [exact Hbody | reflexivity]|]).
  exact (EndpointFacts.malformed_register_rejected parseJson 5
           (mkRequest "POST" "/register/a1" "{") "a1" [] approvedA1
           eq_refl eq_refl Hbody eq_refl).
Defined.

(** C10 at work: the body [{}] registers [b2] with both defaults. *)
Lemma register_defaults_witness :
  method (mkRequest "POST" "/register/b2" "{}") = "POST" /\
  pathPartsOf "/register/b2" = ["register"; "b2"] /\
  ("{}" <> "" /\ parseJson "{}" = Some (JObj [])) /\
  isNullish (JObj []) = false /\
  exists a,
    handleRequest parseJson 7 (mkRequest "POST" "/register/b2" "{}") ∅ =
      (mkResponse 200 (PRegistered "b2"), <["b2" := a]> ∅) /\
    successOf (PRegistered "b2") = Some true /\
    approvalId a = "b2" /\ status a = pending /\ registeredAt a = 7 /\ resolvedAt a = None /\
    (lacks "toolName" (JObj []) -> toolName a = JStr "unknown") /\
    (lacks "input" (JObj []) -> input a = JObj []).
Proof.
  assert (Hbody : "{}" <> "" /\ parseJson "{}" = Some (JObj [])) by (split; [discriminate|reflexivity]).
  do 4 (split; [first [exact Hbody | reflexivity]|]).
  exact (EndpointFacts.register_defaults parseJson 7
           (mkRequest "POST" "/register/b2" "{}") "b2" [] ∅ (JObj [])
           eq_refl eq_refl (or_intror Hbody) eq_refl).
Defined.

(** C9 at work: the approved [a1] is the one record counted. *)
Lemma health_counts_every_record_witness :
  approvedA1 !! "a1" = Some (mkApproval "a1" (JStr "unknown") (JObj []) approved 0 (Some 1)) /\
  approved <> pending /\
  handleRequest parseJson 9 (mkRequest "GET" "/health" "") approvedA1 =
    (mkResponse 200 (PHealth (size approvedA1)), approvedA1) /\
  size approvedA1 = S (size (delete "a1" approvedA1)).
Proof.
  assert (Hst : approved <> pending) by discriminate.
  split; [exact approvedA1_lookup|]. split; [exact Hst|].
  destruct (EndpointFacts.health_counts_every_record parseJson 9 "" approvedA1) as [Hans Hcount].
  split; [exact Hans|].
  exact (Hcount "a1" _ approvedA1_lookup Hst).
Defined.

(** C7 at work: a history of a registration, an approval, a late denial
    through [resolveApproval] and a sweep. *)
Lemma resolvedAt_iff_not_pending_witness :
  let history := [(0, OpRequest registerA1); (1, OpRequest approveA1);
                  (2, OpResolve "a1" false); (3, OpSweep)] in
  let a := mkApproval "a1" (JStr "unknown") (JObj []) approved 0 (Some 1) in
  runOps parseJson history ∅ !! "a1" = Some a /\
  (is_Some (resolvedAt a) <-> status a <> pending).
Proof.
  cbv zeta.
  assert (Hrun : runOps parseJson
                   [(0, OpRequest registerA1); (1, OpRequest approveA1);
                    (2, OpResolve "a1" false); (3, OpSweep)] ∅ !! "a1"
                 = Some (mkApproval "a1" (JStr "unknown") (JObj []) approved 0 (Some 1)))
    by (vm_compute; reflexivity).
  split; [exact Hrun|].
  exact (RegistryFacts.resolvedAt_iff_not_pending parseJson _ "a1" _ Hrun).
Defined.

End EndpointRuns.

(** ** The polling waiter *)

Module WaiterFacts.
Import PermissionClient.

(** Decide one clock test [a <? b] of the goal from the hypotheses. *)
Ltac read_clock :=
  match goal with
  | |- context [?a <? ?b] => destruct (Z.ltb_spec a b); try lia
  end.

Section NeverResolved.

Variable env : PollEnv.
Variables startTime timeoutMs : Z.

(** No status query ever reports [approved] or [denied]. *)
Hypothesis never : forall i, readStatus (statusReply env i) = None.

(** With fuel for the rounds that fit in what is left of the budget, the
    loop ends, by timing out, not before the budget is used up. *)
Lemma pollLoop_times_out (fuel i : nat) (now : Z) :
  (0 < fuel)%nat ->
  startTime + timeoutMs - now <= (Z.of_nat fuel - 1) * pollInterval ->
  exists r,
    pollLoop fuel env startTime timeoutMs i now = Some r /\
    response r = timedOut /\
    timeoutMs <= finishedAt r - startTime /\
    now <= finishedAt r /\
    (i <= queries r)%nat.
Proof.
  revert i now. induction fuel as [|fuel IH]; intros i now Hpos Hleft; [lia|].
  simpl. destruct (Z.ltb_spec (now - startTime) timeoutMs) as [Hin|Hout].
  - rewrite never. unfold pollInterval in *.
    destruct (IH (S i) (now + Z.of_N (fetchTime env i) + 1000 + Z.of_N (sleepExtra env i)))
      as (r & Hr & Hresp & Hlate & Hnow & Hq); [lia | lia |].
    exists r. repeat split; try assumption; lia.
  - eexists. split; [reflexivity|]. simpl. repeat split; lia.
Qed.

(** With a budget of two poll intervals, and a first round shorter than
    two intervals, the loop asks twice. *)
Lemma pollLoop_two_queries (fuel : nat) :
  (3 <= fuel)%nat ->
  timeoutMs = 2 * pollInterval ->
  Z.of_N (fetchTime env 0) + Z.of_N (sleepExtra env 0) < pollInterval ->
  queries <$> pollLoop fuel env startTime timeoutMs 0 startTime = Some 2%nat.
Proof.
  intros Hfuel -> Hfast.
  destruct fuel as [|[|[|fuel]]]; try lia. simpl. rewrite !never.
  unfold pollInterval in *.
  repeat read_clock. reflexivity.
Qed.

(** With the same budget and a first round of two intervals or more, the
    loop asks once. *)
Lemma pollLoop_one_query (fuel : nat) :
  (2 <= fuel)%nat ->
  timeoutMs = 2 * pollInterval ->
  pollInterval <= Z.of_N (fetchTime env 0) + Z.of_N (sleepExtra env 0) ->
  queries <$> pollLoop fuel env startTime timeoutMs 0 startTime = Some 1%nat.
Proof.
  intros Hfuel -> Hslow.
  destruct fuel as [|[|fuel]]; try lia. simpl. rewrite !never.
  unfold pollInterval in *.
  repeat read_clock. reflexivity.
Qed.

End NeverResolved.

(** C3, as the code has it: when no status query ever reports a terminal
    status, the polling waiter returns [{ behavior: 'deny' }] with a message
    containing ["timed out"], and not before the whole budget has passed;
    with a budget of two poll intervals it has issued exactly two status
    queries when the latency of the first query and the overshoot of the
    first timer add up to less than one interval, and exactly one
    otherwise. *)
Theorem poll_times_out_after_budget (env : PollEnv) (timeoutMs startTime : Z) (fuel : nat) :
  (forall i, readStatus (statusReply env i) = None) ->
  (3 <= fuel)%nat ->
  timeoutMs <= (Z.of_nat fuel - 1) * pollInterval ->
  exists r,
    pollApprovalStatus fuel env timeoutMs startTime = Some r /\
    behavior (response r) = deny /\
    includes "timed out" (message (response r)) = true /\
    timeoutMs <= finishedAt r - startTime /\
    (timeoutMs = 2 * pollInterval ->
     Z.of_N (fetchTime env 0) + Z.of_N (sleepExtra env 0) < pollInterval ->
     queries r = 2%nat) /\
    (timeoutMs = 2 * pollInterval ->
     pollInterval <= Z.of_N (fetchTime env 0) + Z.of_N (sleepExtra env 0) ->
     queries r = 1%nat).
Proof.
  intros Hnever Hfuel Hbudget. unfold pollApprovalStatus.
  destruct (pollLoop_times_out env startTime timeoutMs Hnever fuel 0 startTime)
    as (r & Hr & Hresp & Hlate & _ & _); [lia | lia |].
  exists r. rewrite Hresp.
  split; [exact Hr|]. split; [reflexivity|]. split; [reflexivity|]. split; [exact Hlate|].
  split.
  - intros Htwo Hfast.
    pose proof (pollLoop_two_queries env startTime timeoutMs Hnever fuel Hfuel Htwo Hfast) as Hq.
    rewrite Hr in Hq. simpl in Hq. congruence.
  - intros Htwo Hslow.
    assert (Hfuel' : (2 <= fuel)%nat) by lia.
    pose proof (pollLoop_one_query env startTime timeoutMs Hnever fuel Hfuel' Htwo Hslow) as Hq.
    rewrite Hr in Hq. simpl in Hq. congruence.
Qed.

(** C3 at work: budget 2000 ms on the exact clock. *)
Lemma poll_times_out_after_budget_witness :
  (forall i, readStatus (statusReply pendingForever i) = None) /\
  (3 <= 3)%nat /\
  2000 <= (Z.of_nat 3 - 1) * pollInterval /\
  exists r,
    pollApprovalStatus 3 pendingForever 2000 0 = Some r /\
    behavior (response r) = deny /\
    includes "timed out" (message (response r)) = true /\
    2000 <= finishedAt r - 0 /\
    (2000 = 2 * pollInterval ->
     Z.of_N (fetchTime pendingForever 0) + Z.of_N (sleepExtra pendingForever 0) < pollInterval ->
     queries r = 2%nat) /\
    (2000 = 2 * pollInterval ->
     pollInterval <= Z.of_N (fetchTime pendingForever 0) + Z.of_N (sleepExtra pendingForever 0) ->
     queries r = 1%nat).
Proof.
  assert (Hnever : forall i, readStatus (statusReply pendingForever i) = None)
    by (intros i; reflexivity).
  assert (Hfuel : (3 <= 3)%nat) by lia.
  assert (Hbudget : 2000 <= (Z.of_nat 3 - 1) * pollInterval) by (vm_compute; discriminate).
  split; [exact Hnever|]. split; [exact Hfuel|]. split; [exact Hbudget|].
  exact (poll_times_out_after_budget pendingForever 2000 0 3 Hnever Hfuel Hbudget).
Defined.

(** Against C3 as worded: with a budget of two poll intervals and a first
    status query that takes one interval to be answered, the waiter has
    issued one status query, not two, when it times out. *)
Lemma slow_first_query_asks_once :
  (forall i, readStatus (statusReply slowFirstQuery i) = None) /\
  pollApprovalStatus 3 slowFirstQuery (2 * pollInterval) 0 =
    Some (mkPollResult timedOut 1 2000).
Proof. split; [intros i; reflexivity | reflexivity]. Qed.

(** The scenario of the specification, run: budget 2000 ms, poll interval
    1000 ms, never resolved. *)
Example two_unit_budget_run :
  pollApprovalStatus 3 pendingForever 2000 0 = Some (mkPollResult timedOut 2 2000).
Proof. reflexivity. Qed.

(** A status query that reports [approved] ends the wait at once. *)
Lemma poll_returns_on_approved (env : PollEnv) (timeoutMs startTime : Z) (fuel : nat) :
  0 < timeoutMs ->
  statusReply env 0%nat = Replied (JObj [("success", JBool true); ("status", JStr "approved")]) ->
  pollApprovalStatus (S fuel) env timeoutMs startTime =
  Some (mkPollResult (mkPermission allow "Approved by user") 1
          (startTime + Z.of_N (fetchTime env 0))).
Proof.
  intros Hpos Hreply. unfold pollApprovalStatus. simpl.
  destruct (Z.ltb_spec (startTime - startTime) timeoutMs) as [_|Hno]; [|lia].
  rewrite Hreply. reflexivity.
Qed.

End WaiterFacts.

(** ** The permission prompt *)

Module PromptFacts.
Import PermissionClient.

Lemma registerApproval_fails (reply : FetchOutcome) :
  RegistrationFails reply -> truthy (registerApproval reply) = false.
Proof.
  intros Hfails. destruct Hfails as [| |result Hrefused]; simpl; try reflexivity.
  destruct (getProp result "success") as [v|] eqn:Hv; [|reflexivity].
  apply Hrefused. reflexivity.
Qed.

Section FailClosed.

Variable JSON_parse : string -> option JsValue.
Variable JSON_stringify : JsValue -> option (list N).

(** After a failed registration the prompt stops at its first [return]. *)
Lemma prompt_stops_after_failed_registration (fuel : nat) (env : PromptEnv)
    (tool_name input : JsValue) (ctx : JsValue * JsValue * JsValue) :
  readSlackContext JSON_parse env = Some ctx ->
  truthy (registerApproval (registerReply env)) = false ->
  handlePermissionPrompt JSON_parse JSON_stringify fuel env tool_name input =
  Some (Returned (mkPermission deny "Failed to register approval request"),
        [EvRegister ("approval_" ++ pretty (idTime env) ++ "_" ++ idSuffix env) tool_name input]).
Proof.
  intros Hctx Hfalsy. unfold handlePermissionPrompt. rewrite Hctx.
  destruct ctx as [[channel thread_ts] user]. rewrite Hfalsy. reflexivity.
Qed.

(** C5: when the prompt gets as far as registering and the registration
    fails (the transport fails, the reply is unreadable, or it does not
    carry a true [success]), [handlePermissionPrompt] returns
    [{ behavior: 'deny' }]; the register call is the only call it has made:
    no message is posted and no status query is issued. *)
Theorem registration_failure_denies (fuel : nat) (env : PromptEnv) (tool_name input : JsValue)
    (ctx : JsValue * JsValue * JsValue) :
  readSlackContext JSON_parse env = Some ctx ->
  RegistrationFails (registerReply env) ->
  handlePermissionPrompt JSON_parse JSON_stringify fuel env tool_name input =
  Some (Returned (mkPermission deny "Failed to register approval request"),
        [EvRegister ("approval_" ++ pretty (idTime env) ++ "_" ++ idSuffix env) tool_name input]).
Proof.
  intros Hctx Hfails.
  apply (prompt_stops_after_failed_registration fuel env tool_name input ctx Hctx).
  apply registerApproval_fails, Hfails.
Qed.

(** Whatever happens, a prompt whose registration fails does not end in
    [allow]. *)
Lemma registration_failure_never_allows (fuel : nat) (env : PromptEnv) (tool_name input : JsValue)
    (r : PermissionResponse) (sent : list Event) :
  RegistrationFails (registerReply env) ->
  handlePermissionPrompt JSON_parse JSON_stringify fuel env tool_name input
    = Some (Returned r, sent) ->
  behavior r = deny.
Proof.
  intros Hfails Hrun.
  destruct (readSlackContext JSON_parse env) as [ctx|] eqn:Hctx.
  - rewrite (prompt_stops_after_failed_registration fuel env tool_name input ctx Hctx
               (registerApproval_fails _ Hfails)) in Hrun.
    inversion Hrun; subst. reflexivity.
  - unfold handlePermissionPrompt in Hrun. rewrite Hctx in Hrun. discriminate.
Qed.

End FailClosed.

(** C5 at work: the endpoint cannot be reached. *)
Lemma registration_failure_denies_witness :
  readSlackContext parseJson unreachableEndpoint = Some (JUndefined, JUndefined, JUndefined) /\
  RegistrationFails (registerReply unreachableEndpoint) /\
  handlePermissionPrompt parseJson (fun _ => Some (unitsOf "{}")) 400 unreachableEndpoint
    (JStr "Bash") (JObj []) =
  Some (Returned (mkPermission deny "Failed to register approval request"),
        [EvRegister ("approval_" ++ pretty (idTime unreachableEndpoint) ++ "_"
                       ++ idSuffix unreachableEndpoint) (JStr "Bash") (JObj [])]).
Proof.
  assert (Hctx : readSlackContext parseJson unreachableEndpoint
                 = Some (JUndefined, JUndefined, JUndefined)) by reflexivity.
  assert (Hfails : RegistrationFails (registerReply unreachableEndpoint))
    by exact fails_transport.
  split; [exact Hctx|]. split; [exact Hfails|].
  exact (registration_failure_denies parseJson (fun _ => Some (unitsOf "{}")) 400 unreachableEndpoint
           (JStr "Bash") (JObj []) _ Hctx Hfails).
Defined.

End PromptFacts.

(** ** Starting the servers *)

Module StartFacts.
Import Net.

Lemma run_nothing_left (fuel : nat) (bind : Z -> BindResult) (onError : string -> list Action)
    (st : NetState) :
  run fuel bind onError [] st = Some st.
Proof. destruct fuel; reflexivity. Qed.

(** [ApprovalManager.start] asks for the configured port and for no other;
    when that port is taken it logs an error and listens nowhere. *)
Lemma approvalManager_keeps_port (fuel : nat) (bind : Z -> BindResult) (port : Z) :
  (2 <= fuel)%nat ->
  exists st,
    ApprovalManagerStart.start fuel bind port false idle = Some (true, st) /\
    attempted st = [port] /\
    (listeningOn st = None \/ listeningOn st = Some port) /\
    (bind port = BindError "EADDRINUSE" ->
     listeningOn st = None /\
     logged st = [mkLog LError
                    ("Port " ++ pretty port ++ " already in use. Cannot start approval server.")]).
Proof.
  intros Hfuel. destruct fuel as [|[|fuel]]; try lia.
  unfold ApprovalManagerStart.start. simpl.
  destruct (bind port) as [|code] eqn:Hbind.
  - eexists. split; [reflexivity|]. simpl.
    split; [reflexivity|]. split; [right; reflexivity|]. discriminate.
  - unfold ApprovalManagerStart.onError.
    destruct (String.eqb code "EADDRINUSE") eqn:Hcode; simpl; rewrite ?run_nothing_left;
      (eexists; split; [reflexivity|]; simpl;
       split; [reflexivity|]; split; [left; reflexivity|]).
    + intros _. split; reflexivity.
    + intros Hbusy. inversion Hbusy; subst. discriminate.
Qed.

(** The embedded server, finding its port taken and the next one free, ends
    up listening on the next one, having logged a warning and then, from the
    callback of the first [listen], that it listens on the configured port. *)
Lemma embedded_falls_back (fuel : nat) (bind : Z -> BindResult) (port : Z) :
  (3 <= fuel)%nat ->
  bind port = BindError "EADDRINUSE" ->
  bind (port + 1) = Listening ->
  EmbeddedServer.startHttpServer fuel bind port =
  Some (mkNet (Some (port + 1)) [port; port + 1]
          [mkLog LWarn ("Port " ++ pretty port ++ " already in use, trying next port");
           mkLog LInfo ("Permission HTTP server listening on port " ++ pretty port)]).
Proof.
  intros Hfuel Hbusy Hfree. destruct fuel as [|[|[|fuel]]]; try lia.
  unfold EmbeddedServer.startHttpServer. simpl. rewrite Hbusy. simpl. rewrite Hfree.
  rewrite ?run_nothing_left. reflexivity.
Qed.

(** C8, where the embedded server departs from it: started on port 3847
    while that port is taken, [startHttpServer] logs a warning, calls
    [listen(3848)] and ends up listening on port 3848, while the callback of
    the first [listen] logs that it listens on port 3847; no error is
    logged. *)
Theorem embedded_server_moves_to_next_port :
  EmbeddedServer.startHttpServer 3 (onlyBusy 3847) 3847 =
  Some (mkNet (Some 3848) [3847; 3848]
          [mkLog LWarn "Port 3847 already in use, trying next port";
           mkLog LInfo "Permission HTTP server listening on port 3847"]).
Proof.
  assert (Hfuel : (3 <= 3)%nat) by lia.
  rewrite (embedded_falls_back 3 (onlyBusy 3847) 3847 Hfuel eq_refl eq_refl).
  reflexivity.
Qed.

(** On the same system [ApprovalManager.start] stays off every port. *)
Example approvalManager_port_taken :
  ApprovalManagerStart.start 2 (onlyBusy 3847) 3847 false idle =
  Some (true, mkNet None [3847]
                [mkLog LError "Port 3847 already in use. Cannot start approval server."]).
Proof. reflexivity. Qed.

End StartFacts.

(** * Further properties *)

(** ** The registry seen through its routes *)

Module RegistryMore.
Import ApprovalManager Vocabulary.

Lemma truthyPart_Some (o : option string) (x : string) : truthyPart o = Some x -> o = Some x.
Proof. destruct o as [y|]; simpl; [|discriminate]. destruct (nonEmpty y); congruence. Qed.

Lemma no_part_no_route (b : bool) : b && bool_decide (is_Some (@None string)) = false.
Proof. rewrite bool_decide_false; [apply andb_false_r | intros [x Hx]; discriminate]. Qed.

Lemma truthy_or_else (v fallback : JsValue) :
  truthy fallback = true -> truthy (or_else v fallback) = true.
Proof. intros Hf. unfold or_else. destruct (truthy v) eqn:Hv; assumption. Qed.

(** What the register route stores. *)
Lemma buildApproval_fields (parse : string -> option JsValue) (now : Z) (id content : string)
    (a : PendingApproval) :
  buildApproval parse now id content = Some a ->
  approvalId a = id /\ status a = pending /\ registeredAt a = now /\ resolvedAt a = None /\
  truthy (toolName a) = true /\ truthy (input a) = true.
Proof.
  unfold buildApproval. intros Hbuild.
  repeat case_match; try discriminate; inversion Hbuild; subst; simpl;
    repeat split; try reflexivity; apply truthy_or_else; reflexivity.
Qed.

Section Routes.

Variable JSON_parse : string -> option JsValue.

Lemma route_status (now : Z) (req : Request) (id : string) (rest : list string) (m : Registry) :
  method req = "GET" ->
  pathname req <> "/health" ->
  pathPartsOf (pathname req) = "status" :: id :: rest ->
  handleRequest JSON_parse now req m =
  match m !! id with
  | Some approval => (mkResponse 200 (PStatus (status approval) (toolName approval)), m)
  | None => (mkResponse 404 (PFailure "Approval not found"), m)
  end.
Proof.
  intros Hmethod Hpath Hparts. unfold handleRequest.
  rewrite (truthyPart_of_path _ _ _ _ Hparts), Hmethod, Hparts.
  destruct (String.eqb_spec (pathname req) "/health") as [Heq|_]; [contradiction|].
  reflexivity.
Qed.

Lemma status_of_segment (now : Z) (id content : string) (m : Registry) :
  isSegment id = true ->
  handleRequest JSON_parse now (mkRequest "GET" (routePath "status" id) content) m =
  match m !! id with
  | Some approval => (mkResponse 200 (PStatus (status approval) (toolName approval)), m)
  | None => (mkResponse 404 (PFailure "Approval not found"), m)
  end.
Proof.
  intros Hid. apply (route_status now _ id []); [reflexivity | discriminate |].
  apply pathParts_routePath; [reflexivity | exact Hid].
Qed.

Lemma register_of_segment (now : Z) (id content : string) (m : Registry) :
  isSegment id = true ->
  handleRequest JSON_parse now (mkRequest "POST" (routePath "register" id) content) m =
  match buildApproval JSON_parse now id content with
  | Some approval => (mkResponse 200 (PRegistered id), <[id := approval]> m)
  | None => (mkResponse 400 (PFailure "Invalid JSON"), m)
  end.
Proof.
  intros Hid.
  apply (EndpointFacts.route_register JSON_parse now
           (mkRequest "POST" (routePath "register" id) content) id []); [reflexivity|].
  apply pathParts_routePath; [reflexivity | exact Hid].
Qed.

Lemma reads_change_nothing (now : Z) (req : Request) (m : Registry) :
  method req = "GET" \/ method req = "OPTIONS" ->
  snd (handleRequest JSON_parse now req m) = m.
Proof.
  intros [Hm|Hm]; unfold handleRequest; rewrite Hm; simpl; try reflexivity;
    repeat (case_match; simpl; try reflexivity).
Qed.

(** X1: a [GET] or [OPTIONS] request, whatever its path, leaves the
    registry exactly as it was. *)
Theorem reads_leave_registry (now : Z) (req : Request) (m : Registry) :
  method req = "GET" \/ method req = "OPTIONS" ->
  snd (handleRequest JSON_parse now req m) = m.
Proof. exact (reads_change_nothing now req m). Qed.

(** X2: a request changes at most the record stored under its second path
    part: every other id is looked up afterwards as before. *)
Theorem other_ids_untouched (now : Z) (req : Request) (m : Registry) (other : string) :
  nth_error (pathPartsOf (pathname req)) 1 <> Some other ->
  snd (handleRequest JSON_parse now req m) !! other = m !! other.
Proof.
  intros Hother. unfold handleRequest.
  destruct (truthyPart (nth_error (pathPartsOf (pathname req)) 1)) as [x|] eqn:Hpart.
  - apply truthyPart_Some in Hpart. assert (Hne : x <> other) by congruence. simpl.
    repeat (case_match; simpl; try reflexivity);
      rewrite ?lookup_insert_ne, ?lookup_delete_ne by assumption; reflexivity.
  - rewrite !no_part_no_route. simpl.
    repeat (case_match; simpl; try reflexivity).
Qed.

(** X3: for an id that is not in the registry, the status route answers
    404 ['Approval not found'], the approve and deny routes answer 404
    ['Approval not found or already processed'], [resolveApproval] returns
    [false] and [getApprovalStatus] returns [null]; none of them changes the
    registry. *)
Theorem unknown_id_answers (now : Z) (id content : string) (isApproved : bool) (m : Registry) :
  isSegment id = true ->
  m !! id = None ->
  handleRequest JSON_parse now (mkRequest "GET" (routePath "status" id) content) m =
    (mkResponse 404 (PFailure "Approval not found"), m) /\
  handleRequest JSON_parse now (mkRequest "POST" (routePath "approve" id) content) m =
    (mkResponse 404 (PFailure "Approval not found or already processed"), m) /\
  handleRequest JSON_parse now (mkRequest "POST" (routePath "deny" id) content) m =
    (mkResponse 404 (PFailure "Approval not found or already processed"), m) /\
  resolveApproval now id isApproved m = (false, m) /\
  getApprovalStatus id m = None.
Proof.
  intros Hid Hnone.
  assert (Hparts : forall verb, isSegment verb = true ->
            pathPartsOf (routePath verb id) = [verb; id])
    by (intros verb Hverb; apply pathParts_routePath; assumption).
  split; [rewrite (status_of_segment now id content m Hid), Hnone; reflexivity|].
  split.
  { rewrite (EndpointFacts.route_approve JSON_parse now
               (mkRequest "POST" (routePath "approve" id) content) id [] m
               eq_refl (Hparts "approve" eq_refl)).
    rewrite Hnone. reflexivity. }
  split.
  { rewrite (EndpointFacts.route_deny JSON_parse now
               (mkRequest "POST" (routePath "deny" id) content) id [] m
               eq_refl (Hparts "deny" eq_refl)).
    rewrite Hnone. reflexivity. }
  unfold resolveApproval, getApprovalStatus. rewrite Hnone. split; reflexivity.
Qed.

(** X4: a registration that is answered 200 is visible at once: the status
    route then reports ['pending'] with a tool name that is never empty, and
    [getApprovalStatus] agrees. *)
Theorem registered_is_visible (now later : Z) (id content : string) (m : Registry) :
  isSegment id = true ->
  statusCode (fst (handleRequest JSON_parse now
                     (mkRequest "POST" (routePath "register" id) content) m)) = 200 ->
  exists tool,
    handleRequest JSON_parse later (mkRequest "GET" (routePath "status" id) "")
      (snd (handleRequest JSON_parse now (mkRequest "POST" (routePath "register" id) content) m))
    = (mkResponse 200 (PStatus pending tool),
       snd (handleRequest JSON_parse now (mkRequest "POST" (routePath "register" id) content) m)) /\
    truthy tool = true /\
    getApprovalStatus id
      (snd (handleRequest JSON_parse now (mkRequest "POST" (routePath "register" id) content) m))
    = Some pending.
Proof.
  intros Hid. rewrite (register_of_segment now id content m Hid).
  destruct (buildApproval JSON_parse now id content) as [a|] eqn:Hbuild; simpl; [|discriminate].
  intros _. destruct (buildApproval_fields _ _ _ _ _ Hbuild) as (_ & Hst & _ & _ & Htool & _).
  exists (toolName a). rewrite (status_of_segment later id "" _ Hid).
  unfold getApprovalStatus. rewrite lookup_insert_eq. simpl. rewrite Hst. auto.
Qed.

(** X5: registering over an id that is already stored replaces its record,
    whatever its status was, by a pending one stamped with the new time and
    without [resolvedAt]; the number of records grows by one only when the
    id was not stored. *)
Theorem register_overwrites (now : Z) (id content : string) (m : Registry) :
  isSegment id = true ->
  statusCode (fst (handleRequest JSON_parse now
                     (mkRequest "POST" (routePath "register" id) content) m)) = 200 ->
  exists a,
    snd (handleRequest JSON_parse now (mkRequest "POST" (routePath "register" id) content) m) !! id
    = Some a /\
    status a = pending /\ registeredAt a = now /\ resolvedAt a = None /\
    size (snd (handleRequest JSON_parse now (mkRequest "POST" (routePath "register" id) content) m))
    = match m !! id with
      | Some _ => size m
      | None => S (size m)
      end.
Proof.
  intros Hid. rewrite (register_of_segment now id content m Hid).
  destruct (buildApproval JSON_parse now id content) as [a|] eqn:Hbuild; simpl; [|discriminate].
  intros _. destruct (buildApproval_fields _ _ _ _ _ Hbuild) as (_ & Hst & Hat & Hres & _).
  exists a. rewrite lookup_insert_eq, map_size_insert.
  repeat split; try assumption. destruct (m !! id); reflexivity.
Qed.

End Routes.

End RegistryMore.

(** ** Histories of the registry *)

Module HistoryMore.
Import ApprovalManager Vocabulary.

Section Carried.

Variable JSON_parse : string -> option JsValue.
Variable now : Z.

(** [Q] holds of the records before the operation, [P] is to hold after. *)
Variables Q P : string -> PendingApproval -> Prop.

Hypothesis weaken : forall id a, Q id a -> P id a.
Hypothesis built :
  forall id content a, buildApproval JSON_parse now id content = Some a -> P id a.
Hypothesis resolved : forall id s a, Q id a -> P id (setResolved s now a).

Lemma insert_carries (m : Registry) (k : string) (v : PendingApproval) :
  (forall id a, m !! id = Some a -> Q id a) -> P k v ->
  forall id a, <[k := v]> m !! id = Some a -> P id a.
Proof.
  intros Hm Hv id a Hlook. rewrite lookup_insert in Hlook. case_decide.
  - inversion Hlook; subst. exact Hv.
  - eauto.
Qed.

Lemma delete_carries (m : Registry) (k : string) :
  (forall id a, m !! id = Some a -> Q id a) ->
  forall id a, delete k m !! id = Some a -> P id a.
Proof.
  intros Hm id a Hlook. rewrite lookup_delete in Hlook. case_decide; [discriminate|eauto].
Qed.

Lemma handleRequest_carries (req : Request) (m : Registry) :
  (forall id a, m !! id = Some a -> Q id a) ->
  forall id a, snd (handleRequest JSON_parse now req m) !! id = Some a -> P id a.
Proof.
  intros Hm. unfold handleRequest.
  repeat (case_match; simpl; eauto);
    first [ apply insert_carries; eauto | apply delete_carries; eauto ].
Qed.

Lemma resolveApproval_carries (k : string) (isApproved : bool) (m : Registry) :
  (forall id a, m !! id = Some a -> Q id a) ->
  forall id a, snd (resolveApproval now k isApproved m) !! id = Some a -> P id a.
Proof.
  intros Hm. unfold resolveApproval.
  repeat (case_match; simpl; eauto); apply insert_carries; eauto.
Qed.

Lemma sweep_carries (m : Registry) :
  (forall id a, m !! id = Some a -> Q id a) ->
  forall id a, sweep now m !! id = Some a -> P id a.
Proof.
  intros Hm id a Hlook. rewrite RegistryFacts.sweep_lookup in Hlook.
  destruct (m !! id) as [b|] eqn:Hb; [|discriminate].
  destruct (isStale now b); [discriminate|]. inversion Hlook; subst. eauto.
Qed.

Lemma step_carries (op : Op) (m : Registry) :
  (forall id a, m !! id = Some a -> Q id a) ->
  forall id a, step JSON_parse now op m !! id = Some a -> P id a.
Proof.
  intros Hm. destruct op; simpl;
    [apply handleRequest_carries | apply resolveApproval_carries | apply sweep_carries];
    exact Hm.
Qed.

End Carried.

Section Histories.

Variable JSON_parse : string -> option JsValue.

(** A property of records that registration establishes and resolving
    keeps holds of every record of every history. *)
Lemma history_invariant (P : string -> PendingApproval -> Prop) :
  (forall now id content a, buildApproval JSON_parse now id content = Some a -> P id a) ->
  (forall now id s a, P id a -> P id (setResolved s now a)) ->
  forall ops m, (forall id a, m !! id = Some a -> P id a) ->
  forall id a, runOps JSON_parse ops m !! id = Some a -> P id a.
Proof.
  intros Hbuilt Hresolved ops. induction ops as [|[now op] ops IH]; intros m Hm; simpl.
  - exact Hm.
  - apply IH. apply (step_carries JSON_parse now P P); eauto.
Qed.

(** X6: in the registry reached from the empty one by any history, every
    record is stored under its own [approvalId], and its [toolName] and
    [input] are truthy (never [undefined], [null] or the empty string). *)
Theorem records_are_well_formed (ops : list (Z * Op)) (id : string) (a : PendingApproval) :
  runOps JSON_parse ops ∅ !! id = Some a ->
  approvalId a = id /\ truthy (toolName a) = true /\ truthy (input a) = true.
Proof.
  apply (history_invariant
           (fun id a => approvalId a = id /\ truthy (toolName a) = true /\ truthy (input a) = true)).
  - intros now k content b Hbuild.
    destruct (RegistryMore.buildApproval_fields _ _ _ _ _ Hbuild) as (Hk & _ & _ & _ & Ht & Hi).
    auto.
  - intros now k s b Hb. exact Hb.
  - intros k b Hlook. rewrite lookup_empty in Hlook. discriminate.
Qed.

Lemma timely_later (t t' : Z) (a : PendingApproval) : t <= t' -> timely t a -> timely t' a.
Proof.
  intros Hle [Hreg Hres]. split; [lia|]. intros r Hr. specialize (Hres r Hr). lia.
Qed.

Lemma runOps_timely (ops : list (Z * Op)) (t : Z) (m : Registry) :
  ticking t ops ->
  (forall id a, m !! id = Some a -> timely t a) ->
  forall id a, runOps JSON_parse ops m !! id = Some a -> timely (lastTick t ops) a.
Proof.
  revert t m. induction ops as [|[now op] ops IH]; intros t m Htick Hm; simpl.
  - exact Hm.
  - destruct Htick as [Hle Htick]. apply (IH now); [exact Htick|].
    apply (step_carries JSON_parse now (fun _ a => timely t a) (fun _ a => timely now a)).
    + intros k b. apply timely_later, Hle.
    + intros k content b Hbuild.
      destruct (RegistryMore.buildApproval_fields _ _ _ _ _ Hbuild) as (_ & _ & Hat & Hres & _).
      split; [lia|]. intros r Hr. congruence.
    + intros k s b [Hreg _]. split; simpl; [lia|].
      intros r Hr. inversion Hr; subst. lia.
    + exact Hm.
Qed.

(** X7: along a history whose clock readings never go back, every record
    was registered no later than the last reading, and a record that has a
    [resolvedAt] was resolved no earlier than it was registered and no later
    than the last reading. *)
Theorem stamps_in_order (t : Z) (ops : list (Z * Op)) (id : string) (a : PendingApproval) :
  ticking t ops ->
  runOps JSON_parse ops ∅ !! id = Some a ->
  registeredAt a <= lastTick t ops /\
  forall r, resolvedAt a = Some r -> registeredAt a <= r /\ r <= lastTick t ops.
Proof.
  intros Htick Hlook. apply (runOps_timely ops t ∅ Htick) with (id := id); [|exact Hlook].
  intros k b Hb. rewrite lookup_empty in Hb. discriminate.
Qed.

Lemma resolveApproval_other (now : Z) (k id : string) (isApproved : bool) (m : Registry) :
  k <> id -> snd (resolveApproval now k isApproved m) !! id = m !! id.
Proof.
  intros Hne. unfold resolveApproval.
  repeat (case_match; simpl; try reflexivity); apply lookup_insert_ne, Hne.
Qed.

Lemma resolveApproval_keeps_records (now : Z) (k id : string) (isApproved : bool) (m : Registry) :
  is_Some (m !! id) -> is_Some (snd (resolveApproval now k isApproved m) !! id).
Proof.
  intros Hid. unfold resolveApproval.
  repeat (case_match; simpl; try assumption); rewrite lookup_insert; case_decide; eauto.
Qed.

(** X8: a record that has left [pending] is never changed again by a
    history made of [resolveApproval] calls and [GET] or [OPTIONS] requests:
    through the direct method the first resolution is final. *)
Theorem settled_record_is_final (ops : list (Z * Op)) (m : Registry) (id : string)
    (a : PendingApproval) :
  Forall (fun timed => guarded (snd timed)) ops ->
  m !! id = Some a ->
  status a <> pending ->
  runOps JSON_parse ops m !! id = Some a.
Proof.
  intros Hops. revert m. induction Hops as [|[now op] ops Hop _ IH]; intros m Hid Hst; simpl.
  - exact Hid.
  - apply IH; [|exact Hst]. destruct op as [req|k isApproved|]; simpl in *.
    + rewrite (RegistryMore.reads_change_nothing JSON_parse now req m Hop). exact Hid.
    + destruct (decide (k = id)) as [->|Hne].
      * rewrite (EndpointFacts.resolveApproval_settled now id isApproved m a Hid Hst). exact Hid.
      * rewrite resolveApproval_other by exact Hne. exact Hid.
    + contradiction.
Qed.

(** X9: only the sweep removes records: along a history without sweeps
    (requests of any kind, cleanup requests included, and [resolveApproval]
    calls) an id that is stored stays stored. *)
Theorem only_the_sweep_removes (ops : list (Z * Op)) (m : Registry) (id : string) :
  Forall (fun timed => notSweep (snd timed)) ops ->
  is_Some (m !! id) ->
  is_Some (runOps JSON_parse ops m !! id).
Proof.
  intros Hops. revert m. induction Hops as [|[now op] ops Hop _ IH]; intros m Hid; simpl.
  - exact Hid.
  - apply IH. destruct op as [req|k isApproved|]; simpl in *.
    + apply EndpointFacts.handleRequest_keeps_records, Hid.
    + apply resolveApproval_keeps_records, Hid.
    + contradiction.
Qed.

End Histories.

(** X10: two sweeps in a row, in either order of their clock readings,
    leave what the later of the two alone leaves; in particular a sweep
    repeated at the same reading changes nothing more. *)
Theorem sweeps_compose (t1 t2 : Z) (m : Registry) :
  sweep t1 (sweep t2 m) = sweep (Z.max t1 t2) m.
Proof.
  apply map_eq. intros id. rewrite !RegistryFacts.sweep_lookup.
  destruct (m !! id) as [a|]; [|reflexivity]. unfold isStale.
  destruct (Z.ltb_spec (registeredAt a) (t2 - staleAfter));
    destruct (Z.ltb_spec (registeredAt a) (Z.max t1 t2 - staleAfter)); try lia;
    try reflexivity;
    destruct (Z.ltb_spec (registeredAt a) (t1 - staleAfter)); try lia; reflexivity.
Qed.

End HistoryMore.

(** ** Starting and stopping the manager *)

Module LifeFacts.
Import Net ManagerLife.

Lemma start_listens_or_logs (fuel : nat) (bind : Z -> BindResult) (port : Z) (st : NetState) :
  (2 <= fuel)%nat ->
  exists st',
    ApprovalManagerStart.start fuel bind port false st = Some (true, st') /\
    attempted st' = (attempted st ++ [port])%list /\
    (forall code, bind port = BindError code -> listeningOn st' = listeningOn st) /\
    (bind port = Listening -> listeningOn st' = Some port).
Proof.
  intros Hfuel. destruct fuel as [|[|fuel]]; try lia.
  unfold ApprovalManagerStart.start. simpl.
  destruct (bind port) as [|code] eqn:Hbind.
  - eexists. split; [reflexivity|]. simpl. split; [reflexivity|]. split; [discriminate|reflexivity].
  - unfold ApprovalManagerStart.onError.
    destruct (String.eqb code "EADDRINUSE"); simpl; rewrite ?StartFacts.run_nothing_left;
      (eexists; split; [reflexivity|]; simpl; split; [reflexivity|];
       split; [reflexivity|discriminate]).
Qed.

(** X11: after a [start()] whose bind fails, [httpServer] stays set: a
    second [start()] only logs ['HTTP server already running'] and makes no
    new attempt to listen, even on a system where the port is free by then;
    the manager listens nowhere until [stop()] is called. *)
Theorem failed_start_is_not_retried (fuel fuel' : nat) (bind bind' : Z -> BindResult)
    (port : Z) (code : string) :
  (2 <= fuel)%nat ->
  bind port = BindError code ->
  exists mgr mgr',
    start fuel bind port fresh = Some mgr /\
    httpServer mgr = true /\ listeningOn (net mgr) = None /\
    start fuel' bind' port mgr = Some mgr' /\
    listeningOn (net mgr') = None /\
    attempted (net mgr') = [port] /\
    logged (net mgr') = (logged (net mgr) ++ [mkLog LWarn "HTTP server already running"])%list.
Proof.
  intros Hfuel Hbusy.
  destruct (start_listens_or_logs fuel bind port idle Hfuel) as (st & Hstart & Hatt & Hfail & _).
  assert (Hfirst : start fuel bind port fresh = Some (mkManager true st 1)).
  { unfold start. change (httpServer fresh) with false. change (net fresh) with idle.
    rewrite Hstart. reflexivity. }
  exists (mkManager true st 1). eexists. split; [exact Hfirst|]. simpl.
  split; [reflexivity|]. split; [exact (Hfail code Hbusy)|].
  unfold start. simpl. split; [reflexivity|]. simpl.
  split; [exact (Hfail code Hbusy)|]. split; [exact Hatt|reflexivity].
Qed.

Lemma cycles_add_timers (n fuel : nat) (bind : Z -> BindResult) (port : Z) (mgr : Manager) :
  (2 <= fuel)%nat ->
  httpServer mgr = false ->
  exists mgr',
    cycles n fuel bind port mgr = Some mgr' /\
    sweepTimers mgr' = (n + sweepTimers mgr)%nat /\
    httpServer mgr' = false /\
    (n <> 0%nat -> listeningOn (net mgr') = None).
Proof.
  intros Hfuel. revert mgr. induction n as [|n IH]; intros mgr Hoff; simpl.
  - exists mgr. repeat split; auto. intros Hn. contradiction.
  - destruct (start_listens_or_logs fuel bind port (net mgr) Hfuel) as (st & Hstart & _).
    unfold start. rewrite Hoff, Hstart.
    destruct (IH (stop (mkManager true st (S (sweepTimers mgr))))) as (mgr' & Hrun & Ht & Hoff' & Hl);
      [reflexivity|].
    exists mgr'. split; [exact Hrun|]. split; [rewrite Ht; simpl; lia|].
    split; [exact Hoff'|]. intros _.
    destruct n as [|n]; [|apply Hl; discriminate].
    simpl in Hrun. inversion Hrun; subst. reflexivity.
Qed.

(** X12: [stop()] closes the server but does not cancel the sweep timer
    that [start()] installed: after [n] rounds of [start()] and [stop()] the
    manager is stopped and [n] sweep timers are running. *)
Theorem stop_keeps_sweep_timers (n fuel : nat) (bind : Z -> BindResult) (port : Z) :
  (2 <= fuel)%nat ->
  exists mgr,
    cycles n fuel bind port fresh = Some mgr /\
    sweepTimers mgr = n /\ httpServer mgr = false /\ listeningOn (net mgr) = None.
Proof.
  intros Hfuel.
  destruct (cycles_add_timers n fuel bind port fresh Hfuel eq_refl) as (mgr & Hrun & Ht & Hoff & Hl).
  exists mgr. split; [exact Hrun|]. split; [rewrite Ht; simpl; lia|]. split; [exact Hoff|].
  destruct n as [|n]; [|apply Hl; discriminate].
  simpl in Hrun. inversion Hrun; subst. reflexivity.
Qed.

End LifeFacts.

(** ** The embedded waiter *)

Module EmbeddedFacts.
Import PermissionClient EmbeddedWaiter.

Lemma settle_settles (h : nat) (r : PermissionResponse) (done : gmap nat PermissionResponse) :
  is_Some (settle h r done !! h).
Proof.
  unfold settle. destruct (done !! h) as [v|] eqn:Hv.
  - rewrite Hv. eauto.
  - rewrite lookup_insert_eq. eauto.
Qed.

Lemma settle_fresh (h : nat) (r : PermissionResponse) (done : gmap nat PermissionResponse) :
  done !! h = None -> settle h r done !! h = Some r.
Proof. intros Hnone. unfold settle. rewrite Hnone. apply lookup_insert_eq. Qed.

Lemma settle_keeps (h h' : nat) (r v : PermissionResponse) (done : gmap nat PermissionResponse) :
  done !! h = Some v -> settle h' r done !! h = Some v.
Proof.
  intros Hv. unfold settle. destruct (done !! h') as [w|] eqn:Hw; [exact Hv|].
  rewrite lookup_insert_ne; [exact Hv|]. intros ->. congruence.
Qed.

Lemma resolution_of_route (verb id content : string) :
  verb = "approve" \/ verb = "deny" ->
  isSegment id = true ->
  resolution (mkRequest "POST" (routePath verb id) content) = Some (verb, id).
Proof.
  intros Hverb Hid. unfold resolution. simpl.
  rewrite (pathParts_routePath verb id); [|destruct Hverb; subst; reflexivity|exact Hid].
  destruct Hverb; subst; reflexivity.
Qed.

Lemma resolve_waiting (verb id content : string) (h : nat) (s : State) :
  verb = "approve" \/ verb = "deny" ->
  isSegment id = true ->
  waiting s !! id = Some h ->
  handleRequest (mkRequest "POST" (routePath verb id) content) s =
  (mkResponse 200 (PResolved ("Approval " ++ verb ++ "ed")),
   mkState (delete id (waiting s))
     (settle h
        (mkPermission (if String.eqb verb "approve" then allow else deny)
           (if String.eqb verb "approve" then "Approved by user" else "Denied by user"))
        (settled s))
     (nextPromise s)).
Proof.
  intros Hverb Hid Hwait. unfold handleRequest.
  rewrite (resolution_of_route verb id content Hverb Hid). simpl. rewrite Hwait. reflexivity.
Qed.

Lemma resolve_missing (verb id content : string) (s : State) :
  verb = "approve" \/ verb = "deny" ->
  isSegment id = true ->
  waiting s !! id = None ->
  handleRequest (mkRequest "POST" (routePath verb id) content) s = (mkResponse 404 PMissing, s).
Proof.
  intros Hverb Hid Hwait. unfold handleRequest.
  rewrite (resolution_of_route verb id content Hverb Hid). simpl. rewrite Hwait. reflexivity.
Qed.

(** X13: in the embedded server the first resolution wins: approving a
    waiting id answers 200 and settles its promise with [allow]; a deny that
    follows is answered 404 ['Approval not found or already processed'] and
    changes nothing. *)
Theorem embedded_first_resolution_wins (id content : string) (h : nat) (s : State) :
  isSegment id = true ->
  waiting s !! id = Some h ->
  settled s !! h = None ->
  exists s1,
    handleRequest (mkRequest "POST" (routePath "approve" id) content) s =
      (mkResponse 200 (PResolved "Approval approveed"), s1) /\
    settled s1 !! h = Some (mkPermission allow "Approved by user") /\
    handleRequest (mkRequest "POST" (routePath "deny" id) content) s1 =
      (mkResponse 404 PMissing, s1).
Proof.
  intros Hid Hwait Hfresh.
  rewrite (resolve_waiting "approve" id content h s (or_introl eq_refl) Hid Hwait).
  eexists. split; [reflexivity|]. simpl. split; [apply settle_fresh, Hfresh|].
  apply resolve_missing; [right; reflexivity | exact Hid | apply lookup_delete_eq].
Qed.


Lemma settle_keeps_some (h h' : nat) (r : PermissionResponse) (done : gmap nat PermissionResponse) :
  is_Some (done !! h) -> is_Some (settle h' r done !! h).
Proof. intros [v Hv]. rewrite (settle_keeps h h' r v done Hv). eauto. Qed.

Lemma step_answeredOrWaiting (id : string) (h : nat) (s : State) (ev : Event) :
  respects id h ev -> answeredOrWaiting id h s -> answeredOrWaiting id h (step s ev).
Proof.
  intros Hev Hinv. destruct ev as [req|other|other h']; simpl in *.
  - unfold handleRequest.
    destruct (String.eqb (method req) "OPTIONS"); [exact Hinv|].
    destruct (resolution req) as [[action approvalId]|].
    + destruct (waiting s !! approvalId) as [g|] eqn:Hg; [|exact Hinv]. simpl.
      destruct Hinv as [Hw|Hs].
      * destruct (decide (approvalId = id)) as [->|Hne].
        -- right. simpl. assert (g = h) by congruence. subst g. apply settle_settles.
        -- left. simpl. rewrite lookup_delete_ne by exact Hne. exact Hw.
      * right. simpl. apply settle_keeps_some, Hs.
    + destruct (String.eqb (method req) "GET" && String.eqb (pathname req) "/health");
        exact Hinv.
  - destruct Hinv as [Hw|Hs]; [left|right]; simpl.
    + rewrite lookup_insert_ne by exact Hev. exact Hw.
    + exact Hs.
  - unfold timerFires. destruct (waiting s !! other) as [g|] eqn:Hg; [|exact Hinv].
    destruct (decide (other = id)) as [->|Hne].
    + right. simpl. rewrite (Hev eq_refl). apply settle_settles.
    + destruct Hinv as [Hw|Hs]; [left|right]; simpl.
      * rewrite lookup_delete_ne by exact Hne. exact Hw.
      * apply settle_keeps_some, Hs.
Qed.

(** X15: every wait is answered by the time its timer has fired: after
    [waitForApproval(id)], whatever requests, other waits and other timers
    come in between, the promise is settled once the timer of the wait has
    run, provided that no second wait is made on the same id and that no
    timer of an earlier wait on that id is still to fire (such a timer would
    remove the resolver of this wait and settle the earlier promise). *)
Theorem embedded_wait_is_answered (id : string) (s : State) (evs : list Event) :
  Forall (respects id (fst (waitForApproval id s))) evs ->
  is_Some (settled (timerFires id (fst (waitForApproval id s))
                      (run evs (snd (waitForApproval id s))))
           !! fst (waitForApproval id s)).
Proof.
  intros Hevs. set (h := fst (waitForApproval id s)) in *.
  assert (Hinv : answeredOrWaiting id h (run evs (snd (waitForApproval id s)))).
  { assert (Hstart : answeredOrWaiting id h (snd (waitForApproval id s)))
      by (left; simpl; apply lookup_insert_eq).
    revert Hstart. generalize (snd (waitForApproval id s)).
    induction Hevs as [|ev evs Hev _ IH]; intros s0 Hs0; simpl; [exact Hs0|].
    apply IH, step_answeredOrWaiting; assumption. }
  unfold timerFires. destruct (waiting (run evs (snd (waitForApproval id s))) !! id) as [g|] eqn:Hg.
  - simpl. apply settle_settles.
  - destruct Hinv as [Hw|Hs]; [congruence|exact Hs].
Qed.

End EmbeddedFacts.

(** ** More on the polling waiter *)

Module WaiterMore.
Import PermissionClient Vocabulary.

(** [readStatus] answers [allow] only on a reply that says so. *)
Lemma readStatus_allow (reply : FetchOutcome) (r : PermissionResponse) :
  readStatus reply = Some r -> behavior r = allow -> saysApproved reply.
Proof.
  unfold readStatus. intros Hread Hallow.
  destruct reply as [| |result]; try discriminate.
  destruct (getProp result "success") as [success|] eqn:Hs; [|discriminate].
  destruct (getProp result "status") as [st|] eqn:Hst; [|discriminate].
  destruct (truthy success) eqn:Htruthy; simpl in Hread; [|discriminate].
  destruct (truthy st); simpl in Hread; [|discriminate].
  destruct (strictEqStr st "approved") eqn:Happ.
  - destruct st; simpl in Happ; try discriminate.
    apply String.eqb_eq in Happ. subst.
    exists result, success. repeat split; assumption || reflexivity.
  - destruct (strictEqStr st "denied"); [|discriminate].
    inversion Hread; subst. discriminate.
Qed.

Section AnyEnvironment.

Variable env : PollEnv.
Variables startTime timeoutMs : Z.

Lemma pollLoop_allow_source (fuel i : nat) (now : Z) (r : PollResult) :
  pollLoop fuel env startTime timeoutMs i now = Some r ->
  behavior (response r) = allow ->
  exists j, (i <= j < queries r)%nat /\ saysApproved (statusReply env j).
Proof.
  revert i now. induction fuel as [|fuel IH]; intros i now Hrun Hallow; simpl in Hrun;
    [discriminate|].
  destruct (now - startTime <? timeoutMs).
  - destruct (readStatus (statusReply env i)) as [answer|] eqn:Hread.
    + inversion Hrun; subst. simpl in *. exists i. split; [lia|].
      eapply readStatus_allow; eassumption.
    + destruct (IH _ _ Hrun Hallow) as (j & Hj & Hsays). exists j. split; [lia|exact Hsays].
  - inversion Hrun; subst. discriminate.
Qed.

(** The loop ends for every environment, and a query is only issued
    inside the budget. *)
Lemma pollLoop_returns (fuel i : nat) (now : Z) :
  (0 < fuel)%nat ->
  startTime + timeoutMs - now <= (Z.of_nat fuel - 1) * pollInterval ->
  Z.of_nat i * pollInterval <= now - startTime ->
  exists r,
    pollLoop fuel env startTime timeoutMs i now = Some r /\
    (i <= queries r)%nat /\
    (queries r = i \/ (Z.of_nat (queries r) - 1) * pollInterval < timeoutMs) /\
    now <= finishedAt r.
Proof.
  revert i now. induction fuel as [|fuel IH]; intros i now Hpos Hleft Hspent; [lia|].
  simpl. destruct (Z.ltb_spec (now - startTime) timeoutMs) as [Hin|Hout].
  - destruct (readStatus (statusReply env i)) as [answer|].
    + eexists. split; [reflexivity|]. simpl. unfold pollInterval in *.
      split; [lia|]. split; [right; lia|lia].
    + unfold pollInterval in *.
      destruct (IH (S i) (now + Z.of_N (fetchTime env i) + 1000 + Z.of_N (sleepExtra env i)))
        as (r & Hr & Hq & Hbound & Hnow); [lia | lia | lia |].
      exists r. split; [exact Hr|]. split; [lia|]. split; [|lia].
      destruct Hbound as [Heq|Hlt]; [right; lia|right; exact Hlt].
  - eexists. split; [reflexivity|]. simpl. split; [lia|]. split; [left; reflexivity|lia].
Qed.

Lemma roundStart_grows (j k : nat) :
  (j <= k)%nat -> roundStart env startTime j <= roundStart env startTime k.
Proof.
  intros Hle. induction Hle as [|k _ IH]; [lia|]. simpl. unfold pollInterval. lia.
Qed.

(** Rounds without a terminal status lead to the round of the first one. *)
Lemma pollLoop_reaches (k fuel i : nat) (r : PermissionResponse) :
  (forall j, (j < k)%nat -> readStatus (statusReply env j) = None) ->
  readStatus (statusReply env k) = Some r ->
  roundStart env startTime k - startTime < timeoutMs ->
  (i <= k)%nat ->
  (k - i < fuel)%nat ->
  pollLoop fuel env startTime timeoutMs i (roundStart env startTime i) =
  Some (mkPollResult r (S k) (roundStart env startTime k + Z.of_N (fetchTime env k))).
Proof.
  intros Hquiet Hanswer Hbudget. revert i.
  induction fuel as [|fuel IH]; intros i Hik Hfuel; [lia|].
  simpl.
  pose proof (roundStart_grows i k Hik) as Hmono.
  destruct (Z.ltb_spec (roundStart env startTime i - startTime) timeoutMs) as [_|Hout]; [|lia].
  destruct (decide (i = k)) as [->|Hne].
  - rewrite Hanswer. reflexivity.
  - rewrite Hquiet by lia. apply (IH (S i)); lia.
Qed.

End AnyEnvironment.

(** X16: the polling waiter fails closed: it returns [allow] only if one
    of the status queries it issued was answered with a truthy [success] and
    the status ['approved']; errors, unreadable replies, unknown ids and the
    timeout never produce [allow]. *)
Theorem poll_allows_only_on_approved (fuel : nat) (env : PollEnv) (timeoutMs startTime : Z)
    (r : PollResult) :
  pollApprovalStatus fuel env timeoutMs startTime = Some r ->
  behavior (response r) = allow ->
  exists j, (j < queries r)%nat /\ saysApproved (statusReply env j).
Proof.
  intros Hrun Hallow.
  destruct (pollLoop_allow_source env startTime timeoutMs fuel 0 startTime r Hrun Hallow)
    as (j & Hj & Hsays).
  exists j. split; [lia|exact Hsays].
Qed.

(** X17: whatever the replies, latencies and timer overshoots are, the
    polling waiter returns (given fuel for the rounds that fit in the
    budget), not before it started, and the number of status queries it
    issued is zero or less than [timeoutMs / pollInterval + 1]. *)
Theorem poll_returns_with_bounded_queries (fuel : nat) (env : PollEnv) (timeoutMs startTime : Z) :
  (0 < fuel)%nat ->
  timeoutMs <= (Z.of_nat fuel - 1) * pollInterval ->
  exists r,
    pollApprovalStatus fuel env timeoutMs startTime = Some r /\
    (queries r = 0%nat \/ (Z.of_nat (queries r) - 1) * pollInterval < timeoutMs) /\
    startTime <= finishedAt r.
Proof.
  intros Hfuel Hbudget. unfold pollApprovalStatus.
  destruct (pollLoop_returns env startTime timeoutMs fuel 0 startTime)
    as (r & Hr & _ & Hbound & Hnow); [lia | lia | simpl; lia |].
  exists r. auto.
Qed.

(** X18: polls that fail or report a pending or unknown status do not end
    the wait: if the [k]-th query is the first with a terminal status and is
    issued inside the budget, the waiter returns that status after exactly
    [k + 1] queries, as soon as that query is answered. *)
Theorem poll_returns_first_terminal (fuel k : nat) (env : PollEnv) (timeoutMs startTime : Z)
    (r : PermissionResponse) :
  (forall j, (j < k)%nat -> readStatus (statusReply env j) = None) ->
  readStatus (statusReply env k) = Some r ->
  roundStart env startTime k - startTime < timeoutMs ->
  (k < fuel)%nat ->
  pollApprovalStatus fuel env timeoutMs startTime =
  Some (mkPollResult r (S k) (roundStart env startTime k + Z.of_N (fetchTime env k))).
Proof.
  intros Hquiet Hanswer Hbudget Hfuel. unfold pollApprovalStatus.
  apply (pollLoop_reaches env startTime timeoutMs k fuel 0 r Hquiet Hanswer Hbudget); lia.
Qed.

End WaiterMore.

(** ** More on the permission prompt *)

Module PromptMore.
Import PermissionClient Vocabulary.

(** X19: the text shown for the tool input is the input itself, unchanged,
    when it has at most 1500 UTF-16 code units; otherwise it is the first
    1500 code units of the input followed by the marker, 1516 code units in
    all.  It is never longer than 1516 code units (and an input of 1501 to
    1515 code units is shown longer than it is). *)
Theorem truncateInput_shows (inputStr : list N) :
  ((length inputStr <= 1500)%nat -> truncateInput inputStr = inputStr) /\
  ((1500 < length inputStr)%nat ->
   truncateInput inputStr
     = (firstn 1500 inputStr ++ unitsOf (String "010" "... (truncated)"))%list /\
   firstn 1500 (truncateInput inputStr) = firstn 1500 inputStr /\
   length (truncateInput inputStr) = 1516%nat) /\
  (length (truncateInput inputStr) <= 1516)%nat.
Proof.
  unfold truncateInput.
  destruct (Nat.ltb_spec 1500 (length inputStr)) as [Hlong|Hshort].
  - assert (Hcut : length (firstn 1500 inputStr) = 1500%nat)
      by (rewrite length_take; lia).
    assert (Hall : length (firstn 1500 inputStr ++ unitsOf (String "010" "... (truncated)"))
                   = 1516%nat).
    { rewrite length_app, Hcut. reflexivity. }
    split; [intros Hshort; lia|]. split; [|rewrite Hall; lia].
    intros _. split; [reflexivity|]. split; [|exact Hall].
    apply take_app_length'. symmetry. exact Hcut.
  - split; [reflexivity|]. split; [intros Hlong; lia|]. lia.
Qed.

Lemma statusQueries_app (l1 l2 : list Event) :
  statusQueries (l1 ++ l2) = (statusQueries l1 + statusQueries l2)%nat.
Proof. unfold statusQueries. rewrite List.filter_app, length_app. reflexivity. Qed.

Lemma statusQueries_repeat (id : string) (n : nat) :
  statusQueries (repeat (EvStatusQuery id) n) = n.
Proof.
  unfold statusQueries. induction n as [|n IH]; simpl; [reflexivity|].
  rewrite IH. reflexivity.
Qed.

(** The status queries among the calls of a prompt that got to wait. *)
Lemma statusQueries_of_prompt (id : string) (first post : Event) (n : nat) (tail : list Event) :
  isStatusQuery first = false -> isStatusQuery post = false -> statusQueries tail = 0%nat ->
  statusQueries (first :: post :: repeat (EvStatusQuery id) n ++ tail) = n.
Proof.
  intros Hfirst Hpost Htail.
  change (first :: post :: repeat (EvStatusQuery id) n ++ tail)
    with ([first; post] ++ repeat (EvStatusQuery id) n ++ tail)%list.
  rewrite !statusQueries_app, statusQueries_repeat, Htail.
  unfold statusQueries. simpl. rewrite Hfirst, Hpost. simpl. lia.
Qed.

Section Prompt.

Variable JSON_parse : string -> option JsValue.
Variable JSON_stringify : JsValue -> option (list N).

(** X20: the prompt as a whole fails closed: it returns [allow] only if
    the registration was answered with a truthy [success], the Slack message
    was posted, and one of the status queries it sent (the [j]-th, with [j]
    below the number of status queries among its calls) was answered
    ['approved']. *)
Theorem prompt_allows_only_after_approval (fuel : nat) (env : PromptEnv)
    (tool_name input : JsValue) (r : PermissionResponse) (sent : list Event) :
  handlePermissionPrompt JSON_parse JSON_stringify fuel env tool_name input
    = Some (Returned r, sent) ->
  behavior r = allow ->
  truthy (registerApproval (registerReply env)) = true /\
  is_Some (postMessage env) /\
  exists j, (j < statusQueries sent)%nat /\ saysApproved (statusReply (polling env) j).
Proof.
  unfold handlePermissionPrompt. intros Hrun Hallow.
  destruct (readSlackContext JSON_parse env) as [[[channel thread_ts] user]|]; [|discriminate].
  destruct (truthy (registerApproval (registerReply env)));
    cbn -[app pollApprovalStatus] in Hrun; [|inversion Hrun; subst; discriminate].
  destruct (JSON_stringify input) as [inputStr|]; [|discriminate].
  destruct (postMessage env) as [ts|]; [|inversion Hrun; subst; discriminate].
  destruct (pollApprovalStatus fuel (polling env) defaultTimeoutMs (pollStart env))
    as [waited|] eqn:Hwait; [|discriminate].
  split; [reflexivity|]. split; [eauto|].
  assert (Hsource : behavior (response waited) = allow ->
                    exists j, (j < queries waited)%nat /\
                              saysApproved (statusReply (polling env) j)).
  { intros Hw.
    destruct (WaiterMore.pollLoop_allow_source _ _ _ _ _ _ _ Hwait Hw) as (j & Hj & Hsays).
    exists j. split; [lia|exact Hsays]. }
  destruct (truthyPart ts); [destruct (updateThrows env)|];
    injection Hrun as <- <-; try discriminate;
    rewrite statusQueries_of_prompt by reflexivity; exact (Hsource Hallow).
Qed.


End Prompt.

End PromptMore.

(** ** Waiter and endpoint together *)

Module CrossFacts.
Import ApprovalManager PermissionClient CrossProcess Vocabulary.

Section Wire.

Variable JSON_parse : string -> option JsValue.
Variable wire : JsValue -> option JsValue.
Variable URL_pathname : string -> option string.

Lemma readStatus_of_record (now : Z) (id : string) (m : Registry) :
  isSegment id = true ->
  URL_pathname (routePath "status" id) = Some (routePath "status" id) ->
  readStatus (fetchStatus JSON_parse wire URL_pathname now id m) =
  match getApprovalStatus id m with
  | Some approved => Some (mkPermission allow "Approved by user")
  | Some denied => Some (mkPermission deny "Denied by user")
  | Some pending | None => None
  end.
Proof.
  intros Hid Hurl. unfold fetchStatus, getApprovalStatus. rewrite Hurl.
  rewrite (RegistryMore.status_of_segment JSON_parse now id "" m Hid).
  destruct (m !! id) as [a|]; simpl; [|reflexivity].
  unfold received. simpl. destruct (status a), (wire (toolName a)); reflexivity.
Qed.

(** X22: for an id that URL parsing leaves as it is in the path (as the
    ids [approval_<time>_<letters and digits>] the prompt makes), what the
    waiter reads from the endpoint's answer to [GET /status/{id}] is the
    stored status: [allow] for an approved record, [deny] for a denied one,
    and nothing yet (it polls on) for a pending record and for an id the
    registry does not hold. *)
Theorem waiter_reads_stored_status (now : Z) (id : string) (m : Registry) :
  isSegment id = true ->
  URL_pathname (routePath "status" id) = Some (routePath "status" id) ->
  readStatus (fetchStatus JSON_parse wire URL_pathname now id m) =
  match getApprovalStatus id m with
  | Some approved => Some (mkPermission allow "Approved by user")
  | Some denied => Some (mkPermission deny "Denied by user")
  | Some pending | None => None
  end.
Proof. exact (readStatus_of_record now id m). Qed.

(** X23: for an id that URL parsing leaves as it is in the path, a wait on
    an id that, each time it is asked for, is pending or absent from the
    registry (never registered, or swept during the wait) ends as a
    timed-out denial once the budget is used up, not in an error and not
    earlier. *)
Theorem unresolved_or_swept_times_out (fuel : nat) (id : string) (registries : nat -> Registry)
    (at_ : nat -> Z) (latency overshoot : nat -> N) (timeoutMs startTime : Z) :
  isSegment id = true ->
  URL_pathname (routePath "status" id) = Some (routePath "status" id) ->
  (forall i, getApprovalStatus id (registries i) = None \/
             getApprovalStatus id (registries i) = Some pending) ->
  (0 < fuel)%nat ->
  timeoutMs <= (Z.of_nat fuel - 1) * pollInterval ->
  exists r,
    pollApprovalStatus fuel
      (against JSON_parse wire URL_pathname id registries at_ latency overshoot)
      timeoutMs startTime = Some r /\
    response r = timedOut /\
    timeoutMs <= finishedAt r - startTime.
Proof.
  intros Hid Hurl Hopen Hfuel Hbudget. unfold pollApprovalStatus.
  destruct (WaiterFacts.pollLoop_times_out
              (against JSON_parse wire URL_pathname id registries at_ latency overshoot)
              startTime timeoutMs) with (fuel := fuel) (i := 0%nat) (now := startTime)
    as (r & Hr & Hresp & Hlate & _); [| exact Hfuel | lia |].
  - intros i. simpl. rewrite (readStatus_of_record _ _ _ Hid Hurl).
    destruct (Hopen i) as [Hs|Hs]; rewrite Hs; reflexivity.
  - exists r. auto.
Qed.

(** X24: for an id that URL parsing leaves as it is in the path, a wait
    returns the first resolution it meets: if the record is resolved when
    the [k]-th status query arrives (inside the budget) and was pending or
    absent at the queries before, the waiter returns [allow] for approved
    and [deny] for denied, after [k + 1] queries. *)
Theorem wait_returns_stored_resolution (fuel k : nat) (id : string)
    (registries : nat -> Registry) (at_ : nat -> Z) (latency overshoot : nat -> N)
    (timeoutMs startTime : Z) (isApproved : bool) :
  isSegment id = true ->
  URL_pathname (routePath "status" id) = Some (routePath "status" id) ->
  (forall j, (j < k)%nat ->
     getApprovalStatus id (registries j) = None \/
     getApprovalStatus id (registries j) = Some pending) ->
  getApprovalStatus id (registries k) = Some (if isApproved then approved else denied) ->
  roundStart (against JSON_parse wire URL_pathname id registries at_ latency overshoot)
    startTime k - startTime < timeoutMs ->
  (k < fuel)%nat ->
  exists r,
    pollApprovalStatus fuel
      (against JSON_parse wire URL_pathname id registries at_ latency overshoot)
      timeoutMs startTime = Some r /\
    response r = (if isApproved then mkPermission allow "Approved by user"
                  else mkPermission deny "Denied by user") /\
    queries r = S k.
Proof.
  intros Hid Hurl Hopen Hdone Hbudget Hfuel. unfold pollApprovalStatus.
  eexists. split.
  - apply (WaiterMore.pollLoop_reaches
             (against JSON_parse wire URL_pathname id registries at_ latency overshoot)
             startTime timeoutMs k fuel 0
             (if isApproved then mkPermission allow "Approved by user"
              else mkPermission deny "Denied by user")); try lia.
    + intros j Hj. simpl. rewrite (readStatus_of_record _ _ _ Hid Hurl).
      destruct (Hopen j Hj) as [Hs|Hs]; rewrite Hs; reflexivity.
    + simpl. rewrite (readStatus_of_record _ _ _ Hid Hurl), Hdone.
      destruct isApproved; reflexivity.
  - split; reflexivity.
Qed.

(** X25: for an id that URL parsing leaves as it is in the path,
    [registerApproval] never claims a registration that did not happen: when
    it returns a truthy value the record is stored and pending.  When it
    returns a falsy value the registry is as it was, unless the answer of
    the endpoint was lost on the way: then the endpoint did handle the
    request, and the client still reports a failure. *)
Theorem registration_is_reported (transport : Transport) (now : Z) (id content : string)
    (m : Registry) :
  isSegment id = true ->
  URL_pathname (routePath "register" id) = Some (routePath "register" id) ->
  (truthy (registerApproval
             (fst (fetchRegister JSON_parse wire URL_pathname transport now id content m))) = true ->
   transport = Delivered /\
   getApprovalStatus id
     (snd (fetchRegister JSON_parse wire URL_pathname transport now id content m))
   = Some pending) /\
  (truthy (registerApproval
             (fst (fetchRegister JSON_parse wire URL_pathname transport now id content m))) = false ->
   transport <> ReplyLost ->
   snd (fetchRegister JSON_parse wire URL_pathname transport now id content m) = m) /\
  (transport = ReplyLost ->
   truthy (registerApproval
             (fst (fetchRegister JSON_parse wire URL_pathname transport now id content m))) = false /\
   snd (fetchRegister JSON_parse wire URL_pathname transport now id content m) =
   snd (handleRequest JSON_parse now (mkRequest "POST" (routePath "register" id) content) m)).
Proof.
  intros Hid Hurl. unfold fetchRegister. rewrite Hurl.
  destruct transport; cbv zeta; simpl.
  - split; [discriminate|]. split; [reflexivity|discriminate].
  - split; [discriminate|]. split; [intros _ Hne; contradiction|].
    intros _. split; reflexivity.
  - rewrite (RegistryMore.register_of_segment JSON_parse now id content m Hid).
    destruct (buildApproval JSON_parse now id content) as [a|] eqn:Hbuild; simpl.
    + destruct (RegistryMore.buildApproval_fields _ _ _ _ _ Hbuild) as (_ & Hst & _).
      unfold getApprovalStatus. rewrite lookup_insert_eq. simpl. rewrite Hst.
      split; [auto|]. split; discriminate.
    + split; [discriminate|]. split; [reflexivity|discriminate].
Qed.

End Wire.

End CrossFacts.

(** ** The further properties at work *)

Module MoreRuns.
Import ApprovalManager PermissionClient CrossProcess Vocabulary.

Lemma twoRecords_b2 :
  twoRecords !! "b2" = Some (mkApproval "b2" (JStr "unknown") (JObj []) pending 400000 None).
Proof. vm_compute. reflexivity. Qed.

Lemma historyA1_ends :
  runOps parseJson historyA1 ∅ !! "a1"
  = Some (mkApproval "a1" (JStr "unknown") (JObj []) approved 0 (Some 1)).
Proof. vm_compute. reflexivity. Qed.

(** X1 at work: the status query of [a1]. *)
Lemma reads_leave_registry_witness :
  (method statusA1 = "GET" \/ method statusA1 = "OPTIONS") /\
  snd (handleRequest parseJson 5 statusA1 approvedA1) = approvedA1.
Proof.
  assert (Hread : method statusA1 = "GET" \/ method statusA1 = "OPTIONS") by (left; reflexivity).
  split; [exact Hread|].
  exact (RegistryMore.reads_leave_registry parseJson 5 statusA1 approvedA1 Hread).
Defined.

(** X2 at work: denying [a1] leaves [b2] alone. *)
Lemma other_ids_untouched_witness :
  nth_error (pathPartsOf (pathname denyA1)) 1 <> Some "b2" /\
  snd (handleRequest parseJson 5 denyA1 twoRecords) !! "b2" = twoRecords !! "b2".
Proof.
  assert (Hother : nth_error (pathPartsOf (pathname denyA1)) 1 <> Some "b2") by discriminate.
  split; [exact Hother|].
  exact (RegistryMore.other_ids_untouched parseJson 5 denyA1 twoRecords "b2" Hother).
Defined.

(** X3 at work: the id [zz] was never registered. *)
Lemma unknown_id_answers_witness :
  isSegment "zz" = true /\
  approvedA1 !! "zz" = None /\
  handleRequest parseJson 5 (mkRequest "GET" (routePath "status" "zz") "") approvedA1 =
    (mkResponse 404 (PFailure "Approval not found"), approvedA1) /\
  handleRequest parseJson 5 (mkRequest "POST" (routePath "approve" "zz") "") approvedA1 =
    (mkResponse 404 (PFailure "Approval not found or already processed"), approvedA1) /\
  handleRequest parseJson 5 (mkRequest "POST" (routePath "deny" "zz") "") approvedA1 =
    (mkResponse 404 (PFailure "Approval not found or already processed"), approvedA1) /\
  resolveApproval 5 "zz" true approvedA1 = (false, approvedA1) /\
  getApprovalStatus "zz" approvedA1 = None.
Proof.
  assert (Hid : isSegment "zz" = true) by reflexivity.
  assert (Hnone : approvedA1 !! "zz" = None) by (vm_compute; reflexivity).
  split; [exact Hid|]. split; [exact Hnone|].
  exact (RegistryMore.unknown_id_answers parseJson 5 "zz" "" true approvedA1 Hid Hnone).
Defined.

(** X4 at work: [b2] registered with the body [{}]. *)
Lemma registered_is_visible_witness :
  isSegment "b2" = true /\
  statusCode (fst (handleRequest parseJson 7
                     (mkRequest "POST" (routePath "register" "b2") "{}") ∅)) = 200 /\
  exists tool,
    handleRequest parseJson 8 (mkRequest "GET" (routePath "status" "b2") "")
      (snd (handleRequest parseJson 7 (mkRequest "POST" (routePath "register" "b2") "{}") ∅))
    = (mkResponse 200 (PStatus pending tool),
       snd (handleRequest parseJson 7 (mkRequest "POST" (routePath "register" "b2") "{}") ∅)) /\
    truthy tool = true /\
    getApprovalStatus "b2"
      (snd (handleRequest parseJson 7 (mkRequest "POST" (routePath "register" "b2") "{}") ∅))
    = Some pending.
Proof.
  assert (Hid : isSegment "b2" = true) by reflexivity.
  assert (Hok : statusCode (fst (handleRequest parseJson 7
                  (mkRequest "POST" (routePath "register" "b2") "{}") ∅)) = 200)
    by (vm_compute; reflexivity).
  split; [exact Hid|]. split; [exact Hok|].
  exact (RegistryMore.registered_is_visible parseJson 7 8 "b2" "{}" ∅ Hid Hok).
Defined.

(** X5 at work: the approved [a1] registered again at time 9. *)
Lemma register_overwrites_witness :
  isSegment "a1" = true /\
  statusCode (fst (handleRequest parseJson 9
                     (mkRequest "POST" (routePath "register" "a1") "") approvedA1)) = 200 /\
  exists a,
    snd (handleRequest parseJson 9 (mkRequest "POST" (routePath "register" "a1") "") approvedA1)
      !! "a1" = Some a /\
    status a = pending /\ registeredAt a = 9 /\ resolvedAt a = None /\
    size (snd (handleRequest parseJson 9
                 (mkRequest "POST" (routePath "register" "a1") "") approvedA1))
    = match approvedA1 !! "a1" with
      | Some _ => size approvedA1
      | None => S (size approvedA1)
      end.
Proof.
  assert (Hid : isSegment "a1" = true) by reflexivity.
  assert (Hok : statusCode (fst (handleRequest parseJson 9
                  (mkRequest "POST" (routePath "register" "a1") "") approvedA1)) = 200)
    by (vm_compute; reflexivity).
  split; [exact Hid|]. split; [exact Hok|].
  exact (RegistryMore.register_overwrites parseJson 9 "a1" "" approvedA1 Hid Hok).
Defined.

(** X6 at work: the record of [a1] at the end of its history. *)
Lemma records_are_well_formed_witness :
  runOps parseJson historyA1 ∅ !! "a1"
    = Some (mkApproval "a1" (JStr "unknown") (JObj []) approved 0 (Some 1)) /\
  approvalId (mkApproval "a1" (JStr "unknown") (JObj []) approved 0 (Some 1)) = "a1" /\
  truthy (toolName (mkApproval "a1" (JStr "unknown") (JObj []) approved 0 (Some 1))) = true /\
  truthy (input (mkApproval "a1" (JStr "unknown") (JObj []) approved 0 (Some 1))) = true.
Proof.
  split; [exact historyA1_ends|].
  exact (HistoryMore.records_are_well_formed parseJson historyA1 "a1" _ historyA1_ends).
Defined.

(** X7 at work: the same history, on a clock that starts at 0. *)
Lemma stamps_in_order_witness :
  ticking 0 historyA1 /\
  runOps parseJson historyA1 ∅ !! "a1"
    = Some (mkApproval "a1" (JStr "unknown") (JObj []) approved 0 (Some 1)) /\
  0 <= lastTick 0 historyA1 /\
  forall r, Some 1 = Some r -> 0 <= r /\ r <= lastTick 0 historyA1.
Proof.
  assert (Htick : ticking 0 historyA1) by (simpl; lia).
  split; [exact Htick|]. split; [exact historyA1_ends|].
  exact (HistoryMore.stamps_in_order parseJson 0 historyA1 "a1" _ Htick historyA1_ends).
Defined.

(** X8 at work: two [resolveApproval] calls and a status query on the
    approved [a1]. *)
Lemma settled_record_is_final_witness :
  Forall (fun timed => guarded (snd timed))
    [(2, OpResolve "a1" false); (3, OpRequest statusA1); (4, OpResolve "a1" true)] /\
  approvedA1 !! "a1" = Some (mkApproval "a1" (JStr "unknown") (JObj []) approved 0 (Some 1)) /\
  approved <> pending /\
  runOps parseJson
    [(2, OpResolve "a1" false); (3, OpRequest statusA1); (4, OpResolve "a1" true)] approvedA1
    !! "a1" = Some (mkApproval "a1" (JStr "unknown") (JObj []) approved 0 (Some 1)).
Proof.
  assert (Hops : Forall (fun timed => guarded (snd timed))
            [(2, OpResolve "a1" false); (3, OpRequest statusA1); (4, OpResolve "a1" true)]).
  { repeat constructor. }
  assert (Hst : approved <> pending) by discriminate.
  split; [exact Hops|]. split; [exact EndpointRuns.approvedA1_lookup|]. split; [exact Hst|].
  exact (HistoryMore.settled_record_is_final parseJson _ approvedA1 "a1" _ Hops
           EndpointRuns.approvedA1_lookup Hst).
Defined.

(** X9 at work: a cleanup request, a deny request and a [resolveApproval]
    call on [a1]. *)
Lemma only_the_sweep_removes_witness :
  Forall (fun timed => notSweep (snd timed))
    [(2, OpRequest cleanupA1); (3, OpRequest denyA1); (4, OpResolve "a1" true)] /\
  is_Some (approvedA1 !! "a1") /\
  is_Some (runOps parseJson
             [(2, OpRequest cleanupA1); (3, OpRequest denyA1); (4, OpResolve "a1" true)]
             approvedA1 !! "a1").
Proof.
  assert (Hops : Forall (fun timed => notSweep (snd timed))
            [(2, OpRequest cleanupA1); (3, OpRequest denyA1); (4, OpResolve "a1" true)]).
  { repeat constructor. }
  assert (Hin : is_Some (approvedA1 !! "a1")).
  { rewrite EndpointRuns.approvedA1_lookup. eexists. reflexivity. }
  split; [exact Hops|]. split; [exact Hin|].
  exact (HistoryMore.only_the_sweep_removes parseJson _ approvedA1 "a1" Hops Hin).
Defined.

End MoreRuns.

Module ClientRuns.
Import Net ApprovalManager PermissionClient CrossProcess Vocabulary.

(** X11 at work: port 3847 is taken at the first [start()] and free at
    the second. *)
Lemma failed_start_is_not_retried_witness :
  (2 <= 2)%nat /\
  onlyBusy 3847 3847 = BindError "EADDRINUSE" /\
  exists mgr mgr',
    ManagerLife.start 2 (onlyBusy 3847) 3847 ManagerLife.fresh = Some mgr /\
    ManagerLife.httpServer mgr = true /\ listeningOn (ManagerLife.net mgr) = None /\
    ManagerLife.start 0 (fun _ => Listening) 3847 mgr = Some mgr' /\
    listeningOn (ManagerLife.net mgr') = None /\
    attempted (ManagerLife.net mgr') = [3847] /\
    logged (ManagerLife.net mgr') =
      (logged (ManagerLife.net mgr) ++ [mkLog LWarn "HTTP server already running"])%list.
Proof.
  assert (Hfuel : (2 <= 2)%nat) by lia.
  assert (Hbusy : onlyBusy 3847 3847 = BindError "EADDRINUSE") by reflexivity.
  split; [exact Hfuel|]. split; [exact Hbusy|].
  exact (LifeFacts.failed_start_is_not_retried 2 0 (onlyBusy 3847) (fun _ => Listening) 3847
           "EADDRINUSE" Hfuel Hbusy).
Defined.

(** X12 at work: three rounds of [start()] and [stop()]. *)
Lemma stop_keeps_sweep_timers_witness :
  (2 <= 2)%nat /\
  exists mgr,
    ManagerLife.cycles 3 2 (fun _ => Listening) 3847 ManagerLife.fresh = Some mgr /\
    ManagerLife.sweepTimers mgr = 3%nat /\ ManagerLife.httpServer mgr = false /\
    listeningOn (ManagerLife.net mgr) = None.
Proof.
  assert (Hfuel : (2 <= 2)%nat) by lia.
  split; [exact Hfuel|].
  exact (LifeFacts.stop_keeps_sweep_timers 3 2 (fun _ => Listening) 3847 Hfuel).
Defined.

Lemma waitingA1_waits : EmbeddedWaiter.waiting waitingA1 !! "a1" = Some 0%nat.
Proof. vm_compute. reflexivity. Qed.

Lemma waitingA1_unsettled : EmbeddedWaiter.settled waitingA1 !! 0%nat = None.
Proof. vm_compute. reflexivity. Qed.

(** X13 at work: approve then deny on the waiting [a1]. *)
Lemma embedded_first_resolution_wins_witness :
  isSegment "a1" = true /\
  EmbeddedWaiter.waiting waitingA1 !! "a1" = Some 0%nat /\
  EmbeddedWaiter.settled waitingA1 !! 0%nat = None /\
  exists s1,
    EmbeddedWaiter.handleRequest (mkRequest "POST" (routePath "approve" "a1") "") waitingA1 =
      (EmbeddedWaiter.mkResponse 200 (EmbeddedWaiter.PResolved "Approval approveed"), s1) /\
    EmbeddedWaiter.settled s1 !! 0%nat = Some (mkPermission allow "Approved by user") /\
    EmbeddedWaiter.handleRequest (mkRequest "POST" (routePath "deny" "a1") "") s1 =
      (EmbeddedWaiter.mkResponse 404 EmbeddedWaiter.PMissing, s1).
Proof.
  assert (Hid : isSegment "a1" = true) by reflexivity.
  split; [exact Hid|]. split; [exact waitingA1_waits|]. split; [exact waitingA1_unsettled|].
  exact (EmbeddedFacts.embedded_first_resolution_wins "a1" "" 0 waitingA1 Hid
           waitingA1_waits waitingA1_unsettled).
Defined.


(** X15 at work: while [a1] waits, a request for an unknown id comes in,
    [b2] starts to wait and times out. *)
Lemma embedded_wait_is_answered_witness :
  Forall (EmbeddedWaiter.respects "a1"
            (fst (EmbeddedWaiter.waitForApproval "a1" EmbeddedWaiter.initial)))
    [EmbeddedWaiter.EvRequest (mkRequest "POST" (routePath "deny" "zz") "");
     EmbeddedWaiter.EvWait "b2"; EmbeddedWaiter.EvTimer "b2" 1] /\
  is_Some
    (EmbeddedWaiter.settled
       (EmbeddedWaiter.timerFires "a1"
          (fst (EmbeddedWaiter.waitForApproval "a1" EmbeddedWaiter.initial))
          (EmbeddedWaiter.run
             [EmbeddedWaiter.EvRequest (mkRequest "POST" (routePath "deny" "zz") "");
              EmbeddedWaiter.EvWait "b2"; EmbeddedWaiter.EvTimer "b2" 1]
             (snd (EmbeddedWaiter.waitForApproval "a1" EmbeddedWaiter.initial))))
     !! fst (EmbeddedWaiter.waitForApproval "a1" EmbeddedWaiter.initial)).
Proof.
  assert (Hevs : Forall (EmbeddedWaiter.respects "a1"
                           (fst (EmbeddedWaiter.waitForApproval "a1" EmbeddedWaiter.initial)))
            [EmbeddedWaiter.EvRequest (mkRequest "POST" (routePath "deny" "zz") "");
             EmbeddedWaiter.EvWait "b2"; EmbeddedWaiter.EvTimer "b2" 1]).
  { repeat constructor; simpl; discriminate. }
  split; [exact Hevs|].
  exact (EmbeddedFacts.embedded_wait_is_answered "a1" EmbeddedWaiter.initial _ Hevs).
Defined.

Lemma flaky_run :
  pollApprovalStatus 6 flakyThenApproved 5000 0 =
  Some (mkPollResult (mkPermission allow "Approved by user") 3 2000).
Proof. reflexivity. Qed.

(** X16 at work: the wait that is approved at its third query. *)
Lemma poll_allows_only_on_approved_witness :
  pollApprovalStatus 6 flakyThenApproved 5000 0 =
    Some (mkPollResult (mkPermission allow "Approved by user") 3 2000) /\
  behavior (mkPermission allow "Approved by user") = allow /\
  exists j, (j < 3)%nat /\ saysApproved (statusReply flakyThenApproved j).
Proof.
  split; [exact flaky_run|]. split; [reflexivity|].
  exact (WaiterMore.poll_allows_only_on_approved 6 flakyThenApproved 5000 0 _ flaky_run eq_refl).
Defined.

(** X17 at work: the never-resolved approval with a budget of 2000 ms. *)
Lemma poll_returns_with_bounded_queries_witness :
  (0 < 3)%nat /\
  2000 <= (Z.of_nat 3 - 1) * pollInterval /\
  exists r,
    pollApprovalStatus 3 pendingForever 2000 0 = Some r /\
    (queries r = 0%nat \/ (Z.of_nat (queries r) - 1) * pollInterval < 2000) /\
    0 <= finishedAt r.
Proof.
  assert (Hfuel : (0 < 3)%nat) by lia.
  assert (Hbudget : 2000 <= (Z.of_nat 3 - 1) * pollInterval) by (vm_compute; discriminate).
  split; [exact Hfuel|]. split; [exact Hbudget|].
  exact (WaiterMore.poll_returns_with_bounded_queries 3 pendingForever 2000 0 Hfuel Hbudget).
Defined.

(** X18 at work: a failed query, a pending one, then the approval. *)
Lemma poll_returns_first_terminal_witness :
  (forall j, (j < 2)%nat -> readStatus (statusReply flakyThenApproved j) = None) /\
  readStatus (statusReply flakyThenApproved 2) = Some (mkPermission allow "Approved by user") /\
  roundStart flakyThenApproved 0 2 - 0 < 5000 /\
  (2 < 6)%nat /\
  pollApprovalStatus 6 flakyThenApproved 5000 0 =
  Some (mkPollResult (mkPermission allow "Approved by user") 3
          (roundStart flakyThenApproved 0 2 + Z.of_N (fetchTime flakyThenApproved 2))).
Proof.
  assert (Hquiet : forall j, (j < 2)%nat -> readStatus (statusReply flakyThenApproved j) = None).
  { intros j Hj. destruct j as [|[|j]]; [reflexivity | reflexivity | lia]. }
  assert (Hbudget : roundStart flakyThenApproved 0 2 - 0 < 5000) by (vm_compute; reflexivity).
  assert (Hfuel : (2 < 6)%nat) by lia.
  split; [exact Hquiet|]. split; [reflexivity|]. split; [exact Hbudget|]. split; [exact Hfuel|].
  exact (WaiterMore.poll_returns_first_terminal 6 2 flakyThenApproved 5000 0 _
           Hquiet eq_refl Hbudget Hfuel).
Defined.

(** X19 at work: the rendered input [{}], and an input of 1501 code
    units. *)
Lemma truncateInput_shows_witness :
  (length (unitsOf "{}") <= 1500)%nat /\
  truncateInput (unitsOf "{}") = unitsOf "{}" /\
  (1500 < length (repeat 120%N 1501))%nat /\
  firstn 1500 (truncateInput (repeat 120%N 1501)) = firstn 1500 (repeat 120%N 1501) /\
  length (truncateInput (repeat 120%N 1501)) = 1516%nat.
Proof.
  assert (Hshort : (length (unitsOf "{}") <= 1500)%nat) by (simpl; lia).
  assert (Hlong : (1500 < length (repeat 120%N 1501))%nat) by (rewrite repeat_length; lia).
  split; [exact Hshort|].
  split; [exact (proj1 (PromptMore.truncateInput_shows (unitsOf "{}")) Hshort)|].
  split; [exact Hlong|].
  destruct (proj1 (proj2 (PromptMore.truncateInput_shows (repeat 120%N 1501))) Hlong)
    as (_ & Hprefix & Hlength).
  split; [exact Hprefix | exact Hlength].
Defined.

Lemma approvedPrompt_run :
  exists sent,
    handlePermissionPrompt parseJson printsEmpty 400 approvedPrompt (JStr "Bash") (JObj [])
    = Some (Returned (mkPermission allow "Approved by user"), sent).
Proof. eexists. vm_compute. reflexivity. Qed.

(** X20 at work: the prompt that is approved at its third query. *)
Lemma prompt_allows_only_after_approval_witness :
  exists r sent,
    handlePermissionPrompt parseJson printsEmpty 400 approvedPrompt (JStr "Bash") (JObj [])
      = Some (Returned r, sent) /\
    behavior r = allow /\
    truthy (registerApproval (registerReply approvedPrompt)) = true /\
    is_Some (postMessage approvedPrompt) /\
    exists j, (j < statusQueries sent)%nat /\
              saysApproved (statusReply (polling approvedPrompt) j).
Proof.
  destruct approvedPrompt_run as [sent Hrun].
  exists (mkPermission allow "Approved by user"), sent.
  split; [exact Hrun|]. split; [reflexivity|].
  exact (PromptMore.prompt_allows_only_after_approval parseJson printsEmpty 400 approvedPrompt
           (JStr "Bash") (JObj []) _ sent Hrun eq_refl).
Defined.


(** X22 at work: the approved [a1] read over the wire. *)
Lemma waiter_reads_stored_status_witness :
  isSegment "a1" = true /\
  plainPathname (routePath "status" "a1") = Some (routePath "status" "a1") /\
  readStatus (fetchStatus parseJson sameWire plainPathname 0 "a1" approvedA1) =
  match getApprovalStatus "a1" approvedA1 with
  | Some approved => Some (mkPermission allow "Approved by user")
  | Some denied => Some (mkPermission deny "Denied by user")
  | Some pending | None => None
  end.
Proof.
  assert (Hid : isSegment "a1" = true) by reflexivity.
  assert (Hurl : plainPathname (routePath "status" "a1") = Some (routePath "status" "a1"))
    by reflexivity.
  split; [exact Hid|]. split; [exact Hurl|].
  exact (CrossFacts.waiter_reads_stored_status parseJson sameWire plainPathname 0 "a1"
           approvedA1 Hid Hurl).
Defined.

(** X23 at work: a wait on [b2], which stays pending. *)
Lemma unresolved_or_swept_times_out_witness :
  isSegment "b2" = true /\
  plainPathname (routePath "status" "b2") = Some (routePath "status" "b2") /\
  (forall i : nat, getApprovalStatus "b2" twoRecords = None \/
                   getApprovalStatus "b2" twoRecords = Some pending) /\
  (0 < 3)%nat /\
  2000 <= (Z.of_nat 3 - 1) * pollInterval /\
  exists r,
    pollApprovalStatus 3
      (against parseJson sameWire plainPathname "b2" (fun _ => twoRecords) (fun _ => 0)
         (fun _ => 0%N) (fun _ => 0%N)) 2000 0 = Some r /\
    response r = timedOut /\
    2000 <= finishedAt r - 0.
Proof.
  assert (Hid : isSegment "b2" = true) by reflexivity.
  assert (Hurl : plainPathname (routePath "status" "b2") = Some (routePath "status" "b2"))
    by reflexivity.
  assert (Hopen : forall i : nat, getApprovalStatus "b2" twoRecords = None \/
                                  getApprovalStatus "b2" twoRecords = Some pending).
  { intros _. right. unfold getApprovalStatus. rewrite MoreRuns.twoRecords_b2. reflexivity. }
  assert (Hfuel : (0 < 3)%nat) by lia.
  assert (Hbudget : 2000 <= (Z.of_nat 3 - 1) * pollInterval) by (vm_compute; discriminate).
  split; [exact Hid|]. split; [exact Hurl|]. split; [exact Hopen|]. split; [exact Hfuel|].
  split; [exact Hbudget|].
  exact (CrossFacts.unresolved_or_swept_times_out parseJson sameWire plainPathname 3 "b2"
           (fun _ => twoRecords) (fun _ => 0) (fun _ => 0%N) (fun _ => 0%N) 2000 0
           Hid Hurl Hopen Hfuel Hbudget).
Defined.

(** X24 at work: [a1] is approved between the first and the second query. *)
Lemma wait_returns_stored_resolution_witness :
  isSegment "a1" = true /\
  plainPathname (routePath "status" "a1") = Some (routePath "status" "a1") /\
  (forall j, (j < 1)%nat ->
     getApprovalStatus "a1" (approvedLater j) = None \/
     getApprovalStatus "a1" (approvedLater j) = Some pending) /\
  getApprovalStatus "a1" (approvedLater 1) = Some approved /\
  roundStart (against parseJson sameWire plainPathname "a1" approvedLater (fun _ => 0)
                (fun _ => 0%N) (fun _ => 0%N)) 0 1 - 0 < 5000 /\
  (1 < 4)%nat /\
  exists r,
    pollApprovalStatus 4
      (against parseJson sameWire plainPathname "a1" approvedLater (fun _ => 0)
         (fun _ => 0%N) (fun _ => 0%N))
      5000 0 = Some r /\
    response r = mkPermission allow "Approved by user" /\
    queries r = 2%nat.
Proof.
  assert (Hid : isSegment "a1" = true) by reflexivity.
  assert (Hurl : plainPathname (routePath "status" "a1") = Some (routePath "status" "a1"))
    by reflexivity.
  assert (Hopen : forall j, (j < 1)%nat ->
            getApprovalStatus "a1" (approvedLater j) = None \/
            getApprovalStatus "a1" (approvedLater j) = Some pending).
  { intros j Hj. destruct j as [|j]; [|lia]. right. vm_compute. reflexivity. }
  assert (Hdone : getApprovalStatus "a1" (approvedLater 1) = Some approved)
    by (vm_compute; reflexivity).
  assert (Hbudget : roundStart (against parseJson sameWire plainPathname "a1" approvedLater
                                  (fun _ => 0) (fun _ => 0%N) (fun _ => 0%N)) 0 1 - 0 < 5000)
    by (vm_compute; reflexivity).
  assert (Hfuel : (1 < 4)%nat) by lia.
  split; [exact Hid|]. split; [exact Hurl|]. split; [exact Hopen|]. split; [exact Hdone|].
  split; [exact Hbudget|]. split; [exact Hfuel|].
  exact (CrossFacts.wait_returns_stored_resolution parseJson sameWire plainPathname 4 1 "a1"
           approvedLater (fun _ => 0) (fun _ => 0%N) (fun _ => 0%N) 5000 0 true
           Hid Hurl Hopen Hdone Hbudget Hfuel).
Defined.

(** X25 at work: registering [b2] with the body [{}], answered and with
    the answer lost, and with the body [{]. *)
Lemma registration_is_reported_witness :
  isSegment "b2" = true /\
  plainPathname (routePath "register" "b2") = Some (routePath "register" "b2") /\
  truthy (registerApproval
            (fst (fetchRegister parseJson sameWire plainPathname Delivered 7 "b2" "{}" ∅))) = true /\
  getApprovalStatus "b2"
    (snd (fetchRegister parseJson sameWire plainPathname Delivered 7 "b2" "{}" ∅)) = Some pending /\
  truthy (registerApproval
            (fst (fetchRegister parseJson sameWire plainPathname Delivered 7 "b2" "{" approvedA1)))
    = false /\
  snd (fetchRegister parseJson sameWire plainPathname Delivered 7 "b2" "{" approvedA1)
    = approvedA1 /\
  truthy (registerApproval
            (fst (fetchRegister parseJson sameWire plainPathname ReplyLost 7 "b2" "{}" ∅))) = false /\
  getApprovalStatus "b2"
    (snd (fetchRegister parseJson sameWire plainPathname ReplyLost 7 "b2" "{}" ∅)) = Some pending.
Proof.
  assert (Hid : isSegment "b2" = true) by reflexivity.
  assert (Hurl : plainPathname (routePath "register" "b2") = Some (routePath "register" "b2"))
    by reflexivity.
  assert (Hyes : truthy (registerApproval
             (fst (fetchRegister parseJson sameWire plainPathname Delivered 7 "b2" "{}" ∅))) = true)
    by (vm_compute; reflexivity).
  assert (Hno : truthy (registerApproval
             (fst (fetchRegister parseJson sameWire plainPathname Delivered 7 "b2" "{" approvedA1)))
             = false) by (vm_compute; reflexivity).
  assert (Hdelivered : Delivered <> ReplyLost) by discriminate.
  split; [exact Hid|]. split; [exact Hurl|]. split; [exact Hyes|].
  split.
  { exact (proj2 (proj1 (CrossFacts.registration_is_reported parseJson sameWire plainPathname
                           Delivered 7 "b2" "{}" ∅ Hid Hurl) Hyes)). }
  split; [exact Hno|]. split.
  { exact (proj1 (proj2 (CrossFacts.registration_is_reported parseJson sameWire plainPathname
                           Delivered 7 "b2" "{" approvedA1 Hid Hurl)) Hno Hdelivered). }
  destruct (proj2 (proj2 (CrossFacts.registration_is_reported parseJson sameWire plainPathname
                            ReplyLost 7 "b2" "{}" ∅ Hid Hurl)) eq_refl) as [Hfalse Hstored].
  split; [exact Hfalse|]. rewrite Hstored. vm_compute. reflexivity.
Defined.

End ClientRuns.
